(** * Shallow embedding of the wallet service's balance-mutation engine

    Source: [src/app/routers/wallet.py] (the handlers [paystack_webhook],
    [transfer_funds], [get_deposit_status], [withdraw_funds],
    [initiate_deposit], [get_transactions]), [src/app/security.py] and
    [src/app/services/paystack.py].  The handlers import their rows and
    enums from the package [app.models] ([src/app/models/__init__.py]),
    which re-exports them from [app/models/core.py]; that module is not part
    of [src], and the package shadows the older [src/app/models.py].  The
    rows and enums below are modelled from the spec (section 3, "Wallet"
    and "Transaction").

    The database is modelled as a store of two tables: wallets keyed by their
    primary key [id], transactions keyed by their [reference] (the column is
    declared [unique=True], so a reference names at most one row; inserting
    a second row with the same reference makes the commit raise an
    [IntegrityError]).  A handler is a function from its inputs and the
    store before the request to its response and the committed store after
    it.  Results of calls to the payment gateway are inputs of the handler,
    as are the fresh [uuid4] values.  The requests are handled one at a
    time: row locks and interleavings are not modelled. *)

From Stdlib Require Import ZArith String Ascii.
From stdpp Require Import base gmap strings list sorting.

Local Open Scope Z_scope.
Local Open Scope string_scope.

(** ** Data model *)

(** Modelled from the spec: the [TransactionType] enum of the missing
    [app/models/core.py]; the spec gives the transaction types as
    deposit, transfer and withdrawal. *)
Inductive TransactionType := DEPOSIT | TRANSFER | WITHDRAWAL.

(** Modelled from the spec: the [TransactionStatus] enum of the missing
    [app/models/core.py] (pending, success, failed). *)
Inductive TransactionStatus := PENDING | SUCCESS | FAILED.

#[global] Instance TransactionStatus_eq_dec : EqDecision TransactionStatus.
Proof. solve_decision. Defined.

Definition TransactionStatus_value (s : TransactionStatus) : string :=
  match s with PENDING => "pending" | SUCCESS => "success" | FAILED => "failed" end.

(** Modelled from the spec: the integer columns of the missing
    [app/models/core.py] ([Wallet.balance], [Transaction.amount]) hold
    signed 64-bit integers (the spec's "signed 64-bit integer"; the older
    [src/app/models.py] declares them [BigInteger]).  A value outside this
    range cannot be stored: the commit that writes it raises [DataError]
    (PostgreSQL's "bigint out of range"). *)
Definition fits_bigint (z : Z) : bool :=
  Z.leb (- 2 ^ 63) z && Z.leb z (2 ^ 63 - 1).

(** Modelled from the spec: a [Wallet] row (its [id] is the key of the
    wallet table; [currency], timestamps and [user_id] play no part in the
    handlers modelled here). *)
Record Wallet := mkWallet {
  wallet_number : string;
  balance : Z
}.

(** Modelled from the spec: a [Transaction] row ([meta_data], [id] and
    [created_at] omitted; its [reference] is the key of the transaction
    table). *)
Record Transaction := mkTransaction {
  amount : Z;
  transaction_type : TransactionType;
  status : TransactionStatus;
  wallet_id : string
}.

(** The committed database state. *)
Record Store := mkStore {
  wallets : gmap string Wallet;
  transactions : gmap string Transaction
}.

(** The [User] as the handlers see it: [pin_hash] and the id of the linked
    wallet ([user.wallet] is that row of the wallet table, or [None]). *)
Record User := mkUser {
  email : string;
  pin_hash : option string;
  user_wallet_id : option string
}.

Definition user_wallet (u : User) (st : Store) : option (string * Wallet) :=
  match user_wallet_id u with
  | None => None
  | Some wid => match wallets st !! wid with
                | None => None
                | Some w => Some (wid, w)
                end
  end.

(** Row updates as the handlers perform them on the ORM objects. *)
Definition set_balance (b : Z) (w : Wallet) : Wallet :=
  mkWallet (wallet_number w) b.

Definition set_status (s : TransactionStatus) (t : Transaction) : Transaction :=
  mkTransaction (amount t) (transaction_type t) s (wallet_id t).

Definition put_wallet (wid : string) (w : Wallet) (st : Store) : Store :=
  mkStore (<[wid := w]> (wallets st)) (transactions st).

Definition put_transaction (reference : string) (t : Transaction) (st : Store) : Store :=
  mkStore (wallets st) (<[reference := t]> (transactions st)).

(** ** Responses *)

(** JSON values appearing in the handlers' response bodies. *)
Inductive JVal := JStr (s : string) | JInt (z : Z).

(** [Ok body]: the handler returns the dict [body] (HTTP 200);
    [HTTPError code detail]: it raises [HTTPException(code, detail)];
    [Unhandled exc]: an exception escapes the handler (HTTP 500). *)
Inductive Response :=
  | Ok (body : list (string * JVal))
  | HTTPError (code : Z) (detail : string)
  | Unhandled (exc : string).

Definition msg (s m : string) : Response :=
  Ok [("status", JStr s); ("message", JStr m)].

(** ** [paystack_webhook] (wallet.py, lines 70-138) *)

(** The value of [data.get("amount")] as [json.loads] builds it: an [int],
    a [bool] (a subclass of [int] in Python), a [float] (given by its JSON
    literal), or anything else ([None], a string, a list, a dict), on which
    [wallet.balance += amount_paid] raises [TypeError]. *)
Inductive JAmount :=
  | AmtInt (z : Z)
  | AmtBool (b : bool)
  | AmtFloat (literal : string)
  | AmtOther.

(** The value of [data.get("reference")]: a string, [None] (the key is
    absent or [null]), or any other JSON value. *)
Inductive JRef := RefStr (s : string) | RefNull | RefOther.

(** The entries of [data = event_data.get("data", {})] the handler reads;
    an absent ["data"] key gives [mkEventData RefNull AmtOther]. *)
Record EventData := mkEventData {
  ev_reference : JRef;
  ev_amount : JAmount
}.

(** What the handler reads from the parsed body: [event_data.get("event")]
    (as a string, [None] for anything else) and [data], which is [None]
    when it is not a dict ([data.get] then raises [AttributeError]). *)
Record Event := mkEvent {
  ev_event : option string;
  ev_data : option EventData
}.

(** The outcome of [json.loads(payload_bytes)]: [JSONDecodeError]; another
    exception ([UnicodeDecodeError] on bytes that are not UTF-8); a value
    that is not a dict ([event_data.get] raises [AttributeError]); or a
    dict. *)
Inductive JSONParse :=
  | ParseDecodeError
  | ParseRaised (exc : string)
  | ParseNotObject
  | ParseObject (ev : Event).

(** [hmac.compare_digest] on two [str] raises [TypeError] unless both are
    ASCII.  The header value is the latin-1 decoding of the header bytes,
    one character per byte. *)
Definition ascii_only (s : string) : bool :=
  forallb (fun c => Nat.ltb (nat_of_ascii c) 128) (list_ascii_of_string s).

Section Webhook.

(** [hmac.new(key, msg, sha512).hexdigest()] *)
Variable hmac_sha512_hex : string -> string -> string.
(** [json.loads] *)
Variable json_loads : string -> JSONParse.
(** [settings.PAYSTACK_SECRET_KEY] *)
Variable PAYSTACK_SECRET_KEY : string.
(** The balance stored by [session.commit()] after
    [wallet.balance += amount_paid] with a [float] [amount_paid] of the
    given literal, or [None] when the commit raises (the sum is NaN or
    infinite, or does not fit the column).  Floating-point addition and
    the database's conversion to an integer are not modelled. *)
Variable float_credit : Z -> string -> option Z.

(** The balance the commit at line 130 stores after
    [wallet.balance += amount_paid], or [None] when the addition or the
    commit raises (both are caught by the [except] at line 134). *)
Definition credited_balance (b : Z) (a : JAmount) : option Z :=
  match a with
  | AmtInt z => if fits_bigint (b + z) then Some (b + z) else None
  | AmtBool x =>
      let z := if x then 1 else 0 in
      if fits_bigint (b + z) then Some (b + z) else None
  | AmtFloat literal => float_credit b literal
  | AmtOther => None
  end.

(** Lines 103-138: the handling of a [charge.success] event whose [data]
    is a dict. *)
Definition charge_success (data : EventData) (st : Store) : Response * Store :=
  match ev_reference data with
  | RefOther =>
      (* the string column compared with a non-string value: the
         database refuses the query at line 107, outside the try *)
      (Unhandled "ProgrammingError", st)
  | RefNull => (msg "error" "Transaction not found", st)
  | RefStr reference =>
  match transactions st !! reference with
  | None => (msg "error" "Transaction not found", st)
  | Some txn =>
      if decide (status txn = SUCCESS) then
        (msg "ignored" "Transaction already processed", st)
      else
        match wallets st !! wallet_id txn with
        | None => (msg "error" "Wallet not found", st)
        | Some wallet =>
            match credited_balance (balance wallet) (ev_amount data) with
            | None =>
                (* exception caught: session.rollback() *)
                (msg "error" "Internal server error", st)
            | Some balance' =>
                let wallet' := set_balance balance' wallet in
                let txn' := set_status SUCCESS txn in
                (Ok [("status", JStr "success")],
                 put_transaction reference txn' (put_wallet (wallet_id txn) wallet' st))
            end
        end
  end
  end.

Definition paystack_webhook (x_paystack_signature : option string)
    (payload_bytes : string) (st : Store) : Response * Store :=
  match x_paystack_signature with
  | None | Some EmptyString => (HTTPError 400 "Missing signature header", st)
  | Some sig =>
      let expected_signature := hmac_sha512_hex PAYSTACK_SECRET_KEY payload_bytes in
      if negb (ascii_only sig) then (Unhandled "TypeError", st)
      else if negb (String.eqb expected_signature sig) then
        (HTTPError 400 "Invalid signature", st)
      else
        match json_loads payload_bytes with
        | ParseDecodeError => (HTTPError 400 "Invalid JSON", st)
        | ParseRaised exc => (Unhandled exc, st)
        | ParseNotObject => (Unhandled "AttributeError", st)
        | ParseObject event_data =>
            if bool_decide (ev_event event_data <> Some "charge.success") then
              (msg "ignored" "Event type not monitored", st)
            else
              match ev_data event_data with
              | None => (Unhandled "AttributeError", st)
              | Some data => charge_success data st
              end
        end
  end.

(** [n] deliveries of the same request, with the responses in order. *)
Fixpoint replay (n : nat) (x_paystack_signature : option string)
    (payload_bytes : string) (st : Store) : list Response * Store :=
  match n with
  | O => ([], st)
  | S n' =>
      let '(r, st1) := paystack_webhook x_paystack_signature payload_bytes st in
      let '(rs, st2) := replay n' x_paystack_signature payload_bytes st1 in
      (r :: rs, st2)
  end.

(** The admission gate passes: a non-empty ASCII header equal to the digest
    of the body, a body that parses to a dict [ev] of event type
    [charge.success] whose [data] is the dict [data]. *)
Definition webhook_admitted (sig : option string) (body : string) (ev : Event)
    (data : EventData) : Prop :=
  exists s, sig = Some s /\ s <> "" /\ ascii_only s = true /\
    hmac_sha512_hex PAYSTACK_SECRET_KEY body = s /\
    json_loads body = ParseObject ev /\ ev_event ev = Some "charge.success" /\
    ev_data ev = Some data.

End Webhook.

Section Handlers.

(** [app.security.verify_pin(plain_pin, pin_hash)] *)
Variable verify_pin : string -> string -> bool.

(** ** [transfer_funds] (wallet.py, lines 140-207) *)

(** [TransferRequest] (src/app/schemas.py); [description] is unused. *)
Record TransferRequest := mkTransferRequest {
  tr_wallet_number : string;
  tr_amount : Z;
  tr_pin : string
}.

(** [select(Wallet).where(Wallet.wallet_number == n)] followed by
    [.first()]: a row of the wallet table with that number, with its id. *)
Definition find_wallet_by_number (n : string) (ws : gmap string Wallet)
    : option (string * Wallet) :=
  List.find (fun kw => String.eqb (wallet_number kw.2) n) (map_to_list ws).

(** [session.commit()] of the four writes of a transfer: both wallet rows
    and both new transaction rows, or nothing when a reference is already
    taken ([IntegrityError] on the unique [reference] column). *)
Definition commit_transfer (sid : string) (sender : Wallet) (rid : string)
    (receiver : Wallet) (sref : string) (sender_txn : Transaction)
    (rref : string) (receiver_txn : Transaction) (st : Store) : option Store :=
  if decide (is_Some (transactions st !! sref)) then None
  else if decide (is_Some (transactions st !! rref)) then None
  else Some (put_transaction rref receiver_txn (put_transaction sref sender_txn
              (put_wallet rid receiver (put_wallet sid sender st)))).

(** [uuid] is the value of [str(uuid.uuid4())] at line 177. *)
Definition transfer_funds (user : User) (request_data : TransferRequest)
    (uuid : string) (st : Store) : Response * Store :=
  match pin_hash user with
  | None => (HTTPError 400 "Transaction PIN not set", st)
  | Some h =>
  if negb (verify_pin (tr_pin request_data) h) then
    (HTTPError 400 "Invalid Transaction PIN.", st)
  else if Z.leb (tr_amount request_data) 0 then
    (HTTPError 400 "Amount must be positive", st)
  else
  match user_wallet user st with
  | None => (HTTPError 400 "You do not have a wallet", st)
  | Some (sid, sender_wallet) =>
  if Z.ltb (balance sender_wallet) (tr_amount request_data) then
    (HTTPError 400 "Insufficient funds", st)
  else
  match find_wallet_by_number (tr_wallet_number request_data) (wallets st) with
  | None => (HTTPError 404 "Recipient wallet not found", st)
  | Some (rid, receiver_wallet) =>
  if String.eqb sid rid then (HTTPError 400 "Cannot transfer to yourself", st)
  else
  let reference := uuid in
  let sender' := set_balance (balance sender_wallet - tr_amount request_data) sender_wallet in
  let receiver' := set_balance (balance receiver_wallet + tr_amount request_data) receiver_wallet in
  let sender_txn := mkTransaction (- tr_amount request_data) TRANSFER SUCCESS sid in
  let receiver_txn := mkTransaction (tr_amount request_data) TRANSFER SUCCESS rid in
  (* the recipient's new balance must fit its column; the sender's new
     balance and both amounts lie between [- balance sender_wallet] and
     [balance sender_wallet] *)
  if negb (fits_bigint (balance receiver')) then (Unhandled "DataError", st)
  else
  match commit_transfer sid sender' rid receiver' reference sender_txn
          (String.append reference "-credit") receiver_txn st with
  | None => (Unhandled "IntegrityError", st)
  | Some st' =>
      (Ok [("status", JStr "success"); ("message", JStr "Transfer successful");
           ("reference", JStr reference)], st')
  end
  end
  end
  end.

(** ** [get_deposit_status] (wallet.py, lines 253-303) *)

(** The outcome of [await paystack.verify_transaction(reference)]: it raises
    (caught by [except Exception]), or returns data whose [.get("status")]
    is the given value. *)
Inductive VerifyResult := VerifyRaised | VerifyData (gateway_status : option string).

Definition txn_body (reference : string) (txn : Transaction) : list (string * JVal) :=
  [("reference", JStr reference);
   ("status", JStr (TransactionStatus_value (status txn)));
   ("amount", JInt (amount txn))].

Definition get_deposit_status (user : User) (ref : string) (verification : VerifyResult)
    (st : Store) : Response * Store :=
  match transactions st !! ref with
  | None => (HTTPError 404 "Transaction not found", st)
  | Some txn =>
  match user_wallet user st with
  | None => (HTTPError 403 "Not authorized to view this transaction", st)
  | Some (wid, _) =>
  if negb (String.eqb (wallet_id txn) wid) then
    (HTTPError 403 "Not authorized to view this transaction", st)
  else if decide (status txn = PENDING) then
    match verification with
    | VerifyRaised => (Ok (txn_body ref txn), st)
    | VerifyData gateway_status =>
        if bool_decide (gateway_status ∈ [Some "failed"; Some "reversed"; Some "abandoned"]) then
          let txn' := set_status FAILED txn in
          (Ok (txn_body ref txn'), put_transaction ref txn' st)
        else if bool_decide (gateway_status = Some "success") then
          (Ok [("reference", JStr ref); ("status", JStr "success");
               ("amount", JInt (amount txn));
               ("note", JStr "Payment confirmed. Wallet will be credited shortly via webhook.")], st)
        else (Ok (txn_body ref txn), st)
    end
  else (Ok (txn_body ref txn), st)
  end
  end.

(** ** [withdraw_funds] (wallet.py, lines 305-368) *)

(** [WithdrawalRequest] (src/app/schemas.py). *)
Record WithdrawalRequest := mkWithdrawalRequest {
  wr_amount : Z;
  wr_account_number : string;
  wr_bank_code : string;
  wr_account_name : string;
  wr_pin : string
}.

(** Request validation by pydantic before the handler runs:
    [amount: int = Field(gt=0)], [account_number] of length 10. *)
Definition withdrawal_request_valid (r : WithdrawalRequest) : bool :=
  (Z.ltb 0 (wr_amount r)) && Nat.eqb (String.length (wr_account_number r)) 10.

(** [recipient_code] is the value returned by
    [paystack.create_transfer_recipient] ([None] on any failure),
    [transfer_ok] is [transfer_result["status"]] of
    [paystack.initiate_transfer], [uuid] is [str(uuid.uuid4())].  No value
    written here can leave the range of its column when the wallet's
    balance lies in it: [0 < amount <= balance]. *)
Definition withdraw_funds (user : User) (request : WithdrawalRequest)
    (recipient_code : option string) (transfer_ok : bool) (uuid : string)
    (st : Store) : Response * Store :=
  if negb (withdrawal_request_valid request) then
    (HTTPError 422 "Unprocessable Entity", st)
  else
  match pin_hash user with
  | None | Some EmptyString => (HTTPError 400 "PIN not set", st)
  | Some h =>
  if negb (verify_pin (wr_pin request) h) then (HTTPError 401 "Invalid PIN", st)
  else
  match user_wallet user st with
  | None => (HTTPError 400 "User does not have a linked wallet", st)
  | Some (wid, wallet) =>
  if Z.ltb (balance wallet) (wr_amount request) then (HTTPError 400 "Insufficient funds", st)
  else
  (* wallet.balance -= request.amount; session.commit(); session.refresh(wallet) *)
  let wallet1 := set_balance (balance wallet - wr_amount request) wallet in
  let st1 := put_wallet wid wallet1 st in
  (* compensation: wallet.balance += request.amount; session.commit() *)
  let st2 := put_wallet wid (set_balance (balance wallet1 + wr_amount request) wallet1) st1 in
  match recipient_code with
  | None | Some EmptyString =>
      (HTTPError 500 "Failed to register bank account with provider", st2)
  | Some _recipient_code =>
  let reference := String.append "wth-" uuid in
  if negb transfer_ok then (HTTPError 502 "Transfer failed at provider", st2)
  else
  let txn := mkTransaction (- wr_amount request) WITHDRAWAL PENDING wid in
  if decide (is_Some (transactions st1 !! reference)) then
    (Unhandled "IntegrityError", st1)
  else
    (Ok [("status", JStr "success"); ("message", JStr "Withdrawal processing");
         ("reference", JStr reference)], put_transaction reference txn st1)
  end
  end
  end.

End Handlers.

(** Every wallet of the store has a non-negative balance. *)
Definition balances_nonneg (st : Store) : Prop :=
  map_Forall (fun _ w => 0 <= balance w) (wallets st).

(** A webhook amount that cannot lower a balance: a non-negative integer,
    a boolean, or a value that is not a number (the handler refuses it).
    A float is not covered. *)
Definition amount_nonneg (a : JAmount) : Prop :=
  match a with
  | AmtInt z => 0 <= z
  | AmtBool _ => True
  | AmtFloat _ => False
  | AmtOther => True
  end.

(** Sum of the balances of all wallets of the store. *)
Definition total_balance (st : Store) : Z :=
  map_fold (fun _ w acc => balance w + acc) 0 (wallets st).

(** ** [initiate_deposit] (wallet.py, lines 20-67) *)

(** The outcome of [await paystack.initialize_transaction(...)]: it raises
    with the given message, or returns [paystack_data], whose
    ["authorization_url"] entry may be missing ([KeyError]). *)
Inductive InitResult :=
  | InitRaised (e : string)
  | InitData (authorization_url : option string).

(** [uuid] is the value of [str(uuid.uuid4())] at line 34. *)
Definition initiate_deposit (user : User) (request_amount : Z) (init : InitResult)
    (uuid : string) (st : Store) : Response * Store :=
  if Z.leb request_amount 0 then (HTTPError 400 "Amount must be positive", st)
  else
  let reference := uuid in
  match init with
  | InitRaised e =>
      (HTTPError 500 (String.append "Payment initialization failed: " e), st)
  | InitData authorization_url =>
  match user_wallet user st with
  | None => (HTTPError 400 "User does not have a wallet linked", st)
  | Some (wid, _) =>
  let new_txn := mkTransaction request_amount DEPOSIT PENDING wid in
  if negb (fits_bigint request_amount) then (Unhandled "DataError", st)
  else if decide (is_Some (transactions st !! reference)) then (Unhandled "IntegrityError", st)
  else
  let st' := put_transaction reference new_txn st in
  match authorization_url with
  | None => (Unhandled "KeyError", st')
  | Some url => (Ok [("authorization_url", JStr url); ("reference", JStr reference)], st')
  end
  end
  end.

(** ** [get_transactions] (wallet.py, lines 226-250) *)

(** A handler result that is not a response dict: the returned value, or
    an [HTTPException]. *)
Inductive HTTPResult (A : Type) :=
  | Returned (a : A)
  | Raised (code : Z) (detail : string).
Arguments Returned {A} a.
Arguments Raised {A} code detail.

(** [ORDER BY created_at DESC]: [a] comes before [b] when it is not older. *)
Definition newer_first (created_at : string -> Z) (a b : string * Transaction) : Prop :=
  created_at b.1 <= created_at a.1.

#[global] Instance newer_first_dec created_at : RelDecision (newer_first created_at).
Proof. intros a b. unfold newer_first. apply _. Defined.

#[global] Instance newer_first_total created_at : Total (newer_first created_at).
Proof. intros a b. unfold newer_first. lia. Qed.

#[global] Instance newer_first_trans created_at : Transitive (newer_first created_at).
Proof. intros a b c. unfold newer_first. lia. Qed.

(** [created_at] gives the [created_at] column of the row of each
    reference.  SQL leaves the order of rows with equal timestamps
    unspecified; [get_transactions] answers with one admissible order, that
    of the merge sort, and [db_page] below describes every answer the
    database may give.  The query parameters are validated by FastAPI
    ([skip >= 0], [1 <= limit <= 100]) before the handler runs. *)
Definition get_transactions (created_at : string -> Z) (user : User) (skip limit : Z)
    (st : Store) : HTTPResult (list (string * Transaction)) :=
  if negb (Z.leb 0 skip && Z.leb 1 limit && Z.leb limit 100) then
    Raised 422 "Unprocessable Entity"
  else
  match user_wallet user st with
  | None => Raised 404 "No wallet found"
  | Some (wid, _) =>
      let rows := filter (fun rt => wallet_id rt.2 = wid) (map_to_list (transactions st)) in
      let ordered := merge_sort (newer_first created_at) rows in
      Returned (take (Z.to_nat limit) (drop (Z.to_nat skip) ordered))
  end.

(** The rows the [WHERE Transaction.wallet_id == wallet.id] clause
    selects. *)
Definition wallet_rows (wid : string) (st : Store) : list (string * Transaction) :=
  filter (fun rt => wallet_id rt.2 = wid) (map_to_list (transactions st)).

(** The pages the database may answer to one execution of the query: the
    wallet's rows in some order by [created_at DESC] (rows with equal
    timestamps in any order, which may differ from one query to the next),
    then [OFFSET skip LIMIT limit]. *)
Definition db_page (created_at : string -> Z) (wid : string) (st : Store)
    (skip limit : Z) (rows : list (string * Transaction)) : Prop :=
  exists ordered,
    (ordered ≡ₚ wallet_rows wid st) /\ Sorted (newer_first created_at) ordered /\
    rows = take (Z.to_nat limit) (drop (Z.to_nat skip) ordered).

(** No two rows of the wallet share a [created_at] value. *)
Definition distinct_stamps (created_at : string -> Z) (wid : string) (st : Store) : Prop :=
  forall r1 t1 r2 t2,
    transactions st !! r1 = Some t1 -> transactions st !! r2 = Some t2 ->
    wallet_id t1 = wid -> wallet_id t2 = wid ->
    created_at r1 = created_at r2 -> r1 = r2.

(** ** Authentication and permissions (src/app/security.py) *)

(** An [APIKey] row ([id], [name], [created_at] omitted; [key_user] is the
    [user] relationship); [expires_at] is a UTC time stamp. *)
Record APIKey := mkAPIKey {
  key_hash : string;
  key_permissions : list string;
  is_active : bool;
  expires_at : Z;
  key_user : User
}.

Record UserAuthContext := mkUserAuthContext {
  ctx_user : User;
  permissions : list string;
  is_admin : bool
}.

Section Auth.

(** [app.utils.hash_api_key] (SHA-256 hex digest). *)
Variable hash_api_key : string -> string.
(** [get_user_from_jwt(token, session)]: the user named by a valid token. *)
Variable get_user_from_jwt : string -> option User.

(** [get_user_from_api_key], lines 49-67: [keys] is the APIKey table in
    the order [.first()] sees it, [now] is [datetime.now(timezone.utc)]. *)
Definition get_user_from_api_key (api_key : string) (keys : list APIKey) (now : Z)
    : option APIKey :=
  let hashed := hash_api_key api_key in
  match List.find (fun k => String.eqb (key_hash k) hashed) keys with
  | None => None
  | Some key_record =>
      if negb (is_active key_record) then None
      else if Z.ltb (expires_at key_record) now then None
      else Some key_record
  end.

(** [get_auth_context], lines 70-95: [auth_creds] are the bearer
    credentials, [api_key_str] the [x-api-key] header. *)
Definition get_auth_context (auth_creds : option string) (api_key_str : option string)
    (keys : list APIKey) (now : Z) : HTTPResult UserAuthContext :=
  let from_api_key :=
    match api_key_str with
    | None | Some EmptyString => None
    | Some k => get_user_from_api_key k keys now
    end in
  let from_jwt :=
    match auth_creds with
    | None => None
    | Some c => get_user_from_jwt c
    end in
  match from_jwt with
  | Some user => Returned (mkUserAuthContext user [] true)
  | None =>
      match from_api_key with
      | Some key_record =>
          Returned (mkUserAuthContext (key_user key_record) (key_permissions key_record) false)
      | None => Raised 401 "Not authenticated. Provide a valid Bearer token or x-api-key."
      end
  end.

(** [require_permission(permission)]'s [permission_checker], lines 109-119. *)
Definition permission_checker (permission : string) (context : UserAuthContext)
    : HTTPResult User :=
  if is_admin context then Returned (ctx_user context)
  else if bool_decide (permission ∈ permissions context) then Returned (ctx_user context)
  else Raised 403 (String.append "Missing required permission: '"
                     (String.append permission "'")).

(** [Depends(require_permission(permission))]: the authentication context,
    then the permission check. *)
Definition require_permission (permission : string) (auth_creds api_key_str : option string)
    (keys : list APIKey) (now : Z) : HTTPResult User :=
  match get_auth_context auth_creds api_key_str keys now with
  | Raised code detail => Raised code detail
  | Returned context => permission_checker permission context
  end.

End Auth.

(** ** Concrete scenarios *)

Module Scenario.

Definition wallet_A : Wallet := mkWallet "1234567890" 50000.
Definition wallet_B : Wallet := mkWallet "0987654321" 0.

Definition store0 : Store :=
  mkStore (<["wB" := wallet_B]> (<["wA" := wallet_A]> ∅)) ∅.

Definition alice : User := mkUser "test@example.com" (Some "hash-1234") (Some "wA").

(** [verify_pin] accepting the PIN "1234" against the hash "hash-1234". *)
Definition verify_pin_1234 (pin h : string) : bool :=
  String.eqb pin "1234" && String.eqb h "hash-1234".

Definition transfer_5000 : TransferRequest := mkTransferRequest "0987654321" 5000 "1234".

(** A stand-in for [hmac.new(key, msg, sha512).hexdigest()]: the handler
    only compares its value with the header, so any function serves to
    build a header that passes the check. *)
Definition digest_stub (key m : string) : string := String.append "hmac:" (String.append key m).

Definition secret : string := "sk_test".

(** Three [charge.success] bodies for reference "ref-1", paying 5000,
    7000 and -100, the parser that reads them, and the signature header
    computed from a body. *)
Definition body_5000 : string := "event=charge.success reference=ref-1 amount=5000".
Definition body_7000 : string := "event=charge.success reference=ref-1 amount=7000".
Definition body_neg : string := "event=charge.success reference=ref-1 amount=-100".

Definition charge_ref1_data (amount_paid : Z) : EventData :=
  mkEventData (RefStr "ref-1") (AmtInt amount_paid).

Definition charge_ref1 (amount_paid : Z) : Event :=
  mkEvent (Some "charge.success") (Some (charge_ref1_data amount_paid)).

Definition json_stub (b : string) : JSONParse :=
  if String.eqb b body_5000 then ParseObject (charge_ref1 5000)
  else if String.eqb b body_7000 then ParseObject (charge_ref1 7000)
  else if String.eqb b body_neg then ParseObject (charge_ref1 (-100))
  else ParseDecodeError.

(** A stand-in for the commit of a [float] credit: the bodies above carry
    no float. *)
Definition float_stub (b : Z) (literal : string) : option Z := None.

Definition sign (b : string) : option string := Some (digest_stub secret b).

(** Wallet A with a deposit of 5000 under reference "ref-1" in the given
    status. *)
Definition store_dep (s : TransactionStatus) : Store :=
  mkStore (<["wA" := wallet_A]> ∅) (<["ref-1" := mkTransaction 5000 DEPOSIT s "wA"]> ∅).

(** Wallet B (balance 0) with a pending deposit under reference "ref-1". *)
Definition store_zero : Store :=
  mkStore (<["wB" := wallet_B]> ∅) (<["ref-1" := mkTransaction 5000 DEPOSIT PENDING "wB"]> ∅).

Definition withdraw_5000 : WithdrawalRequest :=
  mkWithdrawalRequest 5000 "0123456789" "058" "Test User" "1234".

(** Wallet A's history: a deposit "t-1" and a transfer "t-2" made after
    it, beside a row "t-9" of wallet B; [stamp] gives their [created_at]. *)
Definition store_hist : Store :=
  mkStore (<["wB" := wallet_B]> (<["wA" := wallet_A]> ∅))
    (<["t-9" := mkTransaction 700 DEPOSIT PENDING "wB"]>
      (<["t-2" := mkTransaction (-300) TRANSFER SUCCESS "wA"]>
        (<["t-1" := mkTransaction 5000 DEPOSIT SUCCESS "wA"]> ∅))).

Definition stamp (r : string) : Z :=
  if String.eqb r "t-1" then 1 else if String.eqb r "t-2" then 2 else 3.

(** A stand-in for [hash_api_key], and API keys of alice: "k1" may read,
    "k2" is revoked, "k3" expired at time 10. *)
Definition hash_stub (k : string) : string := String.append "sha256:" k.

Definition key_read : APIKey := mkAPIKey "sha256:k1" ["read"] true 100 alice.
Definition key_revoked : APIKey := mkAPIKey "sha256:k2" ["read"; "deposit"] false 100 alice.
Definition key_expired : APIKey := mkAPIKey "sha256:k3" ["deposit"] true 10 alice.
Definition key_renewed : APIKey := mkAPIKey "sha256:k3" ["deposit"] true 100 alice.

(** A stand-in for [get_user_from_jwt]: one valid token, naming alice. *)
Definition jwt_stub (token : string) : option User :=
  if String.eqb token "tok-alice" then Some alice else None.

End Scenario.

Import Scenario.

Example transfer_scenario :
  let '(r, st') := transfer_funds verify_pin_1234 alice transfer_5000 "u-1" store0 in
  (r, fmap balance (wallets st') !! "wA", fmap balance (wallets st') !! "wB")
  = (Ok [("status", JStr "success"); ("message", JStr "Transfer successful");
         ("reference", JStr "u-1")], Some 45000, Some 5000).
Proof. vm_compute. reflexivity. Qed.

(** ** Lemmas about the store *)

Lemma find_wallet_by_number_lookup (n rid : string) (rw : Wallet) (ws : gmap string Wallet) :
  find_wallet_by_number n ws = Some (rid, rw) -> ws !! rid = Some rw.
Proof.
  unfold find_wallet_by_number. intros Hf.
  apply List.find_some in Hf as [Hin _].
  apply elem_of_map_to_list. by apply list_elem_of_In.
Qed.

Lemma user_wallet_lookup (u : User) (st : Store) (wid : string) (w : Wallet) :
  user_wallet u st = Some (wid, w) -> wallets st !! wid = Some w.
Proof.
  unfold user_wallet. destruct (user_wallet_id u) as [i|]; [|done].
  destruct (wallets st !! i) eqn:E; [|done]. by intros [= -> ->].
Qed.

(** ** Transfers *)

Section TransferProofs.

Variable verify_pin : string -> string -> bool.

(** C2: for a transfer that returns success, the sender's wallet (the
    user's own) and the recipient's wallet (found by number) are distinct,
    the amount is positive, the sender's balance decreased by exactly the
    amount, the recipient's increased by exactly the amount, and the two
    deltas sum to zero. *)
Theorem transfer_funds_conservation (user : User) (req : TransferRequest)
    (uuid : string) (st st' : Store) (body : list (string * JVal)) :
  transfer_funds verify_pin user req uuid st = (Ok body, st') ->
  exists sid sw rid rw sw' rw',
    user_wallet user st = Some (sid, sw) /\
    find_wallet_by_number (tr_wallet_number req) (wallets st) = Some (rid, rw) /\
    wallets st !! rid = Some rw /\
    sid <> rid /\ 0 < tr_amount req /\
    wallets st' !! sid = Some sw' /\ wallets st' !! rid = Some rw' /\
    balance sw' + tr_amount req = balance sw /\
    balance rw' - tr_amount req = balance rw /\
    (balance sw' - balance sw) + (balance rw' - balance rw) = 0.
Proof.
  unfold transfer_funds.
  destruct (pin_hash user) as [h|]; [|discriminate].
  destruct (verify_pin (tr_pin req) h); [|discriminate]. simpl.
  destruct (Z.leb_spec (tr_amount req) 0); [discriminate|].
  destruct (user_wallet user st) as [[sid sw]|] eqn:Hu; [|discriminate].
  destruct (Z.ltb_spec (balance sw) (tr_amount req)); [discriminate|].
  destruct (find_wallet_by_number (tr_wallet_number req) (wallets st))
    as [[rid rw]|] eqn:Hf; [|discriminate].
  destruct (String.eqb_spec sid rid) as [|Hne]; [discriminate|].
  destruct (fits_bigint _); simpl; [|discriminate].
  unfold commit_transfer.
  repeat case_decide; try discriminate.
  intros [= _ <-].
  exists sid, sw, rid, rw,
    (set_balance (balance sw - tr_amount req) sw),
    (set_balance (balance rw + tr_amount req) rw).
  pose proof (find_wallet_by_number_lookup _ _ _ _ Hf).
  unfold put_transaction, put_wallet; simpl.
  rewrite lookup_insert_ne by done. rewrite lookup_insert_eq.
  rewrite lookup_insert_eq.
  repeat split; try done; lia.
Qed.

(** C8: a transfer whose amount is not positive, whose sender's balance is
    below the amount, whose recipient number matches no wallet, or whose
    recipient is the sender's own wallet is rejected with an HTTP error and
    leaves the store (every balance and the transaction table) unchanged. *)
Theorem transfer_funds_rejections (user : User) (req : TransferRequest)
    (uuid : string) (st : Store) :
  (tr_amount req <= 0 \/
   (exists sid sw, user_wallet user st = Some (sid, sw) /\ balance sw < tr_amount req) \/
   find_wallet_by_number (tr_wallet_number req) (wallets st) = None \/
   (exists sid sw rw, user_wallet user st = Some (sid, sw) /\
      find_wallet_by_number (tr_wallet_number req) (wallets st) = Some (sid, rw))) ->
  exists code detail,
    transfer_funds verify_pin user req uuid st = (HTTPError code detail, st).
Proof.
  intros Hcase. unfold transfer_funds.
  destruct (pin_hash user) as [h|]; [|eauto].
  destruct (verify_pin (tr_pin req) h); [|eauto]. simpl.
  destruct (Z.leb_spec (tr_amount req) 0); [eauto|].
  destruct (user_wallet user st) as [[sid sw]|] eqn:Hu; [|eauto].
  destruct (Z.ltb_spec (balance sw) (tr_amount req)); [eauto|].
  destruct (find_wallet_by_number (tr_wallet_number req) (wallets st))
    as [[rid rw]|] eqn:Hf; [|eauto].
  destruct (String.eqb_spec sid rid) as [|Hne]; [eauto|].
  exfalso.
  destruct Hcase as [?|[(sid' & sw' & Hu' & ?)|[?|(sid' & sw' & rw' & Hu' & Hf')]]].
  all: simplify_eq; try lia; try done.
Qed.

End TransferProofs.

(** ** Webhook *)

Section WebhookProofs.

Variable hmac_sha512_hex : string -> string -> string.
Variable PAYSTACK_SECRET_KEY : string.
Variable float_credit : Z -> string -> option Z.

Lemma paystack_webhook_admitted json_loads sig body ev data st :
  webhook_admitted hmac_sha512_hex json_loads PAYSTACK_SECRET_KEY sig body ev data ->
  paystack_webhook hmac_sha512_hex json_loads PAYSTACK_SECRET_KEY float_credit sig body st
  = charge_success float_credit data st.
Proof.
  intros (s & -> & Hne & Ha & Hs & Hj & He & Hd). unfold paystack_webhook.
  destruct s as [|c s']; [done|].
  rewrite Ha, Hs, String.eqb_refl, Hj. simpl.
  rewrite bool_decide_false; [|rewrite He; tauto]. by rewrite Hd.
Qed.

(** A handling that left the store as it was and did not credit. *)
Ltac unchanged_reply :=
  eexists; split; [reflexivity|try discriminate].

(** A second handling of the same event changes nothing, and answers
    "already processed" after a handling that credited. *)
Lemma charge_success_replay data st :
  let '(r1, st1) := charge_success float_credit data st in
  exists r2, charge_success float_credit data st1 = (r2, st1) /\
    (r1 = Ok [("status", JStr "success")] ->
     r2 = msg "ignored" "Transaction already processed").
Proof.
  unfold charge_success.
  destruct (ev_reference data) as [r| |]; [|unchanged_reply|unchanged_reply].
  destruct (transactions st !! r) as [txn|] eqn:Ht; [|rewrite ?Ht; unchanged_reply].
  case_decide as Hs.
  - rewrite Ht. case_decide; [unchanged_reply|done].
  - destruct (wallets st !! wallet_id txn) as [w|] eqn:Hw.
    + destruct (credited_balance float_credit (balance w) (ev_amount data)) as [b'|] eqn:Hc.
      * simpl. rewrite lookup_insert_eq. simpl.
        eexists; split; [reflexivity|done].
      * rewrite ?Ht. case_decide; [done|]. rewrite ?Hw, ?Hc. unchanged_reply.
    + rewrite ?Ht. case_decide; [done|]. rewrite ?Hw. unchanged_reply.
Qed.

Lemma paystack_webhook_replay json_loads sig body st :
  let '(r1, st1) :=
    paystack_webhook hmac_sha512_hex json_loads PAYSTACK_SECRET_KEY float_credit sig body st in
  exists r2,
    paystack_webhook hmac_sha512_hex json_loads PAYSTACK_SECRET_KEY float_credit sig body st1
      = (r2, st1) /\
    (r1 = Ok [("status", JStr "success")] ->
     r2 = msg "ignored" "Transaction already processed").
Proof.
  unfold paystack_webhook.
  destruct sig as [[|c s']|]; [unchanged_reply| |unchanged_reply].
  destruct (ascii_only _); simpl; [|unchanged_reply].
  destruct (String.eqb _ _); simpl; [|unchanged_reply].
  destruct (json_loads body) as [|exc| |ev]; try unchanged_reply.
  destruct (bool_decide _); [unchanged_reply|].
  destruct (ev_data ev) as [data|]; [|unchanged_reply].
  pose proof (charge_success_replay data st) as Hr.
  destruct (charge_success float_credit data st) as [r1 st1]. exact Hr.
Qed.

(** C5: delivering the same webhook request [n + 1] times leaves the store
    as one delivery does (the wallet is credited at most once), and once a
    delivery has credited, each of the [n] later deliveries answers
    "ignored / Transaction already processed". *)
Theorem paystack_webhook_at_most_once json_loads sig body st (n : nat) :
  let '(r1, st1) :=
    paystack_webhook hmac_sha512_hex json_loads PAYSTACK_SECRET_KEY float_credit sig body st in
  replay hmac_sha512_hex json_loads PAYSTACK_SECRET_KEY float_credit (S n) sig body st
  = (r1 :: fst (replay hmac_sha512_hex json_loads PAYSTACK_SECRET_KEY float_credit n sig body st1),
     st1) /\
  (r1 = Ok [("status", JStr "success")] ->
   fst (replay hmac_sha512_hex json_loads PAYSTACK_SECRET_KEY float_credit n sig body st1)
   = List.repeat (msg "ignored" "Transaction already processed") n).
Proof.
  pose proof (paystack_webhook_replay json_loads sig body st) as Hr.
  simpl. destruct (paystack_webhook _ _ _ _ sig body st) as [r1 st1].
  destruct Hr as (r2 & Hst & Hok).
  assert (Hn : forall m,
    replay hmac_sha512_hex json_loads PAYSTACK_SECRET_KEY float_credit m sig body st1
    = (List.repeat r2 m, st1)).
  { induction m as [|m IH]; simpl; [done|]. rewrite Hst, IH. done. }
  rewrite Hn. simpl. split; [done|].
  intros H1. rewrite (Hok H1). done.
Qed.

(** C9: a request whose signature header is missing or empty, or differs
    from the digest of the raw body under the secret, is rejected and
    leaves the store unchanged: with HTTP 400 "Missing signature header"
    or "Invalid signature", or, for a header that is not ASCII, with the
    [TypeError] that [hmac.compare_digest] raises (HTTP 500).  The outcome
    is the same whatever the parser would make of the body (the body is
    not parsed). *)
Theorem paystack_webhook_rejects_bad_signature
    (json_loads json_loads' : string -> JSONParse) sig body st :
  (sig = None \/ sig = Some "" \/
   exists s, sig = Some s /\ hmac_sha512_hex PAYSTACK_SECRET_KEY body <> s) ->
  exists resp,
    paystack_webhook hmac_sha512_hex json_loads PAYSTACK_SECRET_KEY float_credit sig body st
      = (resp, st) /\
    paystack_webhook hmac_sha512_hex json_loads' PAYSTACK_SECRET_KEY float_credit sig body st
      = (resp, st) /\
    (resp = HTTPError 400 "Missing signature header" \/
     resp = HTTPError 400 "Invalid signature" \/
     (resp = Unhandled "TypeError" /\ exists s, sig = Some s /\ ascii_only s = false)).
Proof.
  intros Hsig. unfold paystack_webhook.
  destruct sig as [[|c s']|]; [eauto 6| |eauto 6].
  destruct (ascii_only (String c s')) eqn:Ha; simpl; [|eauto 10].
  destruct (String.eqb_spec (hmac_sha512_hex PAYSTACK_SECRET_KEY body) (String c s'))
    as [Heq|]; simpl; [|eauto 6].
  exfalso. destruct Hsig as [?|[?|(s & Hs & Hne)]]; simplify_eq.
Qed.

End WebhookProofs.

Section WebhookAmended.

Variable hmac_sha512_hex : string -> string -> string.
Variable PAYSTACK_SECRET_KEY : string.
Variable float_credit : Z -> string -> option Z.

(** C1 (amended): for an admitted [charge.success] webhook whose reference
    names a Transaction not in status success whose wallet exists, and whose
    [amount] is an integer [amount_paid], the handler credits the wallet by
    [amount_paid] and sets the Transaction to success, whatever the
    Transaction's recorded [amount]: no comparison is made.  This holds
    when the credited balance fits the signed 64-bit column; otherwise the
    commit fails, the handler rolls back, answers "Internal server error"
    and nothing changes. *)
Theorem paystack_webhook_credits_amount_paid json_loads sig body st ev data r txn w
    (amount_paid : Z) :
  webhook_admitted hmac_sha512_hex json_loads PAYSTACK_SECRET_KEY sig body ev data ->
  ev_reference data = RefStr r ->
  transactions st !! r = Some txn ->
  status txn <> SUCCESS ->
  wallets st !! wallet_id txn = Some w ->
  ev_amount data = AmtInt amount_paid ->
  (fits_bigint (balance w + amount_paid) = true ->
   paystack_webhook hmac_sha512_hex json_loads PAYSTACK_SECRET_KEY float_credit sig body st
   = (Ok [("status", JStr "success")],
      put_transaction r (set_status SUCCESS txn)
        (put_wallet (wallet_id txn) (set_balance (balance w + amount_paid) w) st))) /\
  (fits_bigint (balance w + amount_paid) = false ->
   paystack_webhook hmac_sha512_hex json_loads PAYSTACK_SECRET_KEY float_credit sig body st
   = (msg "error" "Internal server error", st)).
Proof.
  intros Hadm Hr Ht Hs Hw Ha.
  rewrite (paystack_webhook_admitted _ _ _ _ _ _ _ _ _ Hadm).
  unfold charge_success. rewrite Hr, Ht.
  rewrite decide_False by done. rewrite Hw, Ha. simpl.
  split; intros Hf; by rewrite Hf.
Qed.

(** C4 (amended): for an admitted [charge.success] webhook whose reference
    names a Transaction in status success, the handler answers
    "ignored / Transaction already processed" and changes nothing; a
    Transaction in status failed is not final: with its wallet present and
    an integer amount that keeps the balance within the signed 64-bit
    column, it is credited and set to success. *)
Theorem paystack_webhook_success_is_final json_loads sig body st ev data r txn :
  webhook_admitted hmac_sha512_hex json_loads PAYSTACK_SECRET_KEY sig body ev data ->
  ev_reference data = RefStr r ->
  transactions st !! r = Some txn ->
  (status txn = SUCCESS ->
   paystack_webhook hmac_sha512_hex json_loads PAYSTACK_SECRET_KEY float_credit sig body st
   = (msg "ignored" "Transaction already processed", st)) /\
  (status txn = FAILED -> forall w amount_paid,
   wallets st !! wallet_id txn = Some w -> ev_amount data = AmtInt amount_paid ->
   fits_bigint (balance w + amount_paid) = true ->
   paystack_webhook hmac_sha512_hex json_loads PAYSTACK_SECRET_KEY float_credit sig body st
   = (Ok [("status", JStr "success")],
      put_transaction r (set_status SUCCESS txn)
        (put_wallet (wallet_id txn) (set_balance (balance w + amount_paid) w) st))).
Proof.
  intros Hadm Hr Ht.
  rewrite (paystack_webhook_admitted _ _ _ _ _ _ _ _ _ Hadm).
  unfold charge_success. rewrite Hr, Ht. split.
  - intros Hs. by rewrite decide_True.
  - intros Hs w a Hw Ha Hf. rewrite decide_False by (rewrite Hs; done).
    rewrite Hw, Ha. simpl. by rewrite Hf.
Qed.

End WebhookAmended.

(** C1 counterexample: a pending deposit of 5000 confirmed by a webhook
    paying 7000 is credited 7000 and marked success. *)
Lemma paystack_webhook_amount_mismatch_credited :
  let '(resp, st') :=
    paystack_webhook digest_stub json_stub secret float_stub (sign body_7000) body_7000
      (store_dep PENDING) in
  fmap amount (transactions (store_dep PENDING) !! "ref-1") = Some 5000 /\
  resp = Ok [("status", JStr "success")] /\
  fmap balance (wallets st' !! "wA") = Some 57000 /\
  fmap status (transactions st' !! "ref-1") = Some SUCCESS.
Proof. vm_compute. repeat split. Qed.

(** C4 counterexample: a webhook for a deposit already in status failed
    credits the wallet and turns the Transaction to success. *)
Lemma paystack_webhook_failed_txn_credited :
  let '(resp, st') :=
    paystack_webhook digest_stub json_stub secret float_stub (sign body_5000) body_5000
      (store_dep FAILED) in
  resp = Ok [("status", JStr "success")] /\
  fmap balance (wallets (store_dep FAILED) !! "wA") = Some 50000 /\
  fmap balance (wallets st' !! "wA") = Some 55000 /\
  fmap status (transactions st' !! "ref-1") = Some SUCCESS.
Proof. vm_compute. repeat split. Qed.

(** ** Withdrawals and deposit status *)

Section WithdrawProofs.

Variable verify_pin : string -> string -> bool.

(** The debit committed at line 325 followed by the compensating credit
    committed at line 339 or 353 gives back the store of the request. *)
Lemma debit_then_credit_id (st : Store) (wid : string) (w : Wallet) (a : Z) :
  wallets st !! wid = Some w ->
  put_wallet wid (set_balance (balance w - a + a) (set_balance (balance w - a) w))
    (put_wallet wid (set_balance (balance w - a) w) st) = st.
Proof.
  intros Hw. destruct st as [ws ts]. unfold put_wallet; simpl in *.
  rewrite insert_insert_eq.
  replace (balance w - a + a) with (balance w) by lia.
  f_equal. apply insert_id. rewrite Hw. by destruct w.
Qed.

(** C3: a withdrawal that passes request validation, the PIN checks and the
    balance check, but whose recipient registration fails (no recipient
    code) answers the provider error 500, and one whose payout initiation
    fails answers the provider error 502; in both cases the store after the
    request is the store before it: the balance is restored and no
    Transaction is created. *)
Theorem withdraw_funds_compensates (user : User) (req : WithdrawalRequest)
    (uuid : string) (st : Store) (h wid : string) (w : Wallet) :
  withdrawal_request_valid req = true ->
  pin_hash user = Some h -> h <> "" -> verify_pin (wr_pin req) h = true ->
  user_wallet user st = Some (wid, w) -> wr_amount req <= balance w ->
  (forall rc ok, (rc = None \/ rc = Some "") ->
     withdraw_funds verify_pin user req rc ok uuid st
     = (HTTPError 500 "Failed to register bank account with provider", st)) /\
  (forall c, c <> "" ->
     withdraw_funds verify_pin user req (Some c) false uuid st
     = (HTTPError 502 "Transfer failed at provider", st)).
Proof.
  intros Hv Hp Hh Hpin Hu Hb.
  pose proof (user_wallet_lookup _ _ _ _ Hu) as Hw.
  unfold withdraw_funds. rewrite Hv, Hp. simpl.
  destruct h as [|ch h']; [done|]. rewrite Hpin, Hu. simpl.
  destruct (Z.ltb_spec (balance w) (wr_amount req)); [lia|].
  rewrite debit_then_credit_id by done.
  split.
  - intros rc ok [-> | ->]; done.
  - intros [|c0 c'] Hc; done.
Qed.

(** C6: a withdrawal that passes request validation, the PIN checks and the
    balance check, whose recipient registration returns a code and whose
    payout initiation succeeds, answers success with the reference
    "wth-" ++ uuid and persists under that reference a pending withdrawal
    Transaction of [-amount] owned by the user's wallet; the wallet stays
    debited by the amount.  The reference is one no row holds yet (it is
    built from a fresh [uuid4]). *)
Theorem withdraw_funds_success_records (user : User) (req : WithdrawalRequest)
    (uuid : string) (st : Store) (h wid : string) (w : Wallet) (c : string) :
  withdrawal_request_valid req = true ->
  pin_hash user = Some h -> h <> "" -> verify_pin (wr_pin req) h = true ->
  user_wallet user st = Some (wid, w) -> wr_amount req <= balance w ->
  c <> "" -> transactions st !! String.append "wth-" uuid = None ->
  withdraw_funds verify_pin user req (Some c) true uuid st
  = (Ok [("status", JStr "success"); ("message", JStr "Withdrawal processing");
         ("reference", JStr (String.append "wth-" uuid))],
     put_transaction (String.append "wth-" uuid)
       (mkTransaction (- wr_amount req) WITHDRAWAL PENDING wid)
       (put_wallet wid (set_balance (balance w - wr_amount req) w) st)).
Proof.
  intros Hv Hp Hh Hpin Hu Hb Hc Hr.
  unfold withdraw_funds. rewrite Hv, Hp. simpl.
  destruct h as [|ch h']; [done|]. rewrite Hpin, Hu. simpl.
  destruct (Z.ltb_spec (balance w) (wr_amount req)); [lia|].
  destruct c as [|c0 c']; [done|]. simpl.
  rewrite decide_False; [done|]. rewrite Hr. apply is_Some_None.
Qed.

End WithdrawProofs.

(** C3 witness: Alice withdraws 5000 of her 50000; registration fails in
    the first run, payout initiation in the second. *)
Lemma withdraw_funds_compensates_witness :
  withdraw_funds verify_pin_1234 alice withdraw_5000 None true "u-2" store0
    = (HTTPError 500 "Failed to register bank account with provider", store0) /\
  withdraw_funds verify_pin_1234 alice withdraw_5000 (Some "RCP_1") false "u-2" store0
    = (HTTPError 502 "Transfer failed at provider", store0).
Proof.
  destruct (withdraw_funds_compensates verify_pin_1234 alice withdraw_5000 "u-2" store0
              "hash-1234" "wA" wallet_A) as [H1 H2];
    [reflexivity|reflexivity|discriminate|reflexivity|reflexivity|vm_compute; discriminate|].
  split; [apply H1; left; reflexivity|apply H2; discriminate].
Defined.

(** C6 witness: Alice withdraws 5000 of her 50000, the gateway registers
    the recipient and accepts the payout. *)
Lemma withdraw_funds_success_records_witness :
  withdraw_funds verify_pin_1234 alice withdraw_5000 (Some "RCP_1") true "u-2" store0
  = (Ok [("status", JStr "success"); ("message", JStr "Withdrawal processing");
         ("reference", JStr (String.append "wth-" "u-2"))],
     put_transaction (String.append "wth-" "u-2")
       (mkTransaction (- wr_amount withdraw_5000) WITHDRAWAL PENDING "wA")
       (put_wallet "wA" (set_balance (balance wallet_A - wr_amount withdraw_5000) wallet_A)
          store0)).
Proof.
  apply (withdraw_funds_success_records verify_pin_1234 alice withdraw_5000 "u-2" store0
           "hash-1234" "wA" wallet_A "RCP_1").
  - reflexivity.
  - reflexivity.
  - discriminate.
  - reflexivity.
  - reflexivity.
  - vm_compute. discriminate.
  - discriminate.
  - reflexivity.
Defined.

Lemma get_deposit_status_wallets (user : User) (ref : string) (vr : VerifyResult)
    (st : Store) :
  wallets (snd (get_deposit_status user ref vr st)) = wallets st.
Proof.
  unfold get_deposit_status.
  destruct (transactions st !! ref) as [txn|]; [|done].
  destruct (user_wallet user st) as [[wid w]|]; [|done].
  destruct (String.eqb (wallet_id txn) wid); simpl; [|done].
  case_decide; [|done].
  destruct vr as [|gs]; [done|].
  destruct (bool_decide (gs ∈ _)); [done|].
  destruct (bool_decide (gs = Some "success")); done.
Qed.

(** C10: checking a deposit's status leaves every wallet as it was, and
    leaves the transaction table as it was except in one case: the queried
    Transaction was pending and the gateway reported failed, reversed or
    abandoned, and it is then set to failed (never to success). *)
Theorem get_deposit_status_frame (user : User) (ref : string) (vr : VerifyResult)
    (st : Store) :
  let st' := snd (get_deposit_status user ref vr st) in
  wallets st' = wallets st /\
  (transactions st' = transactions st \/
   exists txn gs,
     transactions st !! ref = Some txn /\ status txn = PENDING /\
     vr = VerifyData gs /\
     gs ∈ [Some "failed"; Some "reversed"; Some "abandoned"] /\
     transactions st' = <[ref := set_status FAILED txn]> (transactions st)).
Proof.
  split; [apply get_deposit_status_wallets|].
  unfold get_deposit_status.
  destruct (transactions st !! ref) as [txn|] eqn:Ht; [|auto].
  destruct (user_wallet user st) as [[wid w]|]; [|auto].
  destruct (String.eqb (wallet_id txn) wid); simpl; [|auto].
  case_decide as Hp; [|auto].
  destruct vr as [|gs]; [auto|].
  destruct (bool_decide_reflect (gs ∈ [Some "failed"; Some "reversed"; Some "abandoned"]))
    as [Hin|]; simpl.
  - right. by exists txn, gs.
  - destruct (bool_decide (gs = Some "success")); auto.
Qed.

(** ** Non-negative balances *)

Lemma balances_nonneg_put_wallet (st : Store) (wid : string) (w : Wallet) :
  balances_nonneg st -> 0 <= balance w -> balances_nonneg (put_wallet wid w st).
Proof. intros H Hw. by apply map_Forall_insert_2. Qed.

Lemma balances_nonneg_put_transaction (st : Store) (r : string) (t : Transaction) :
  balances_nonneg st -> balances_nonneg (put_transaction r t st).
Proof. done. Qed.

Lemma balances_nonneg_lookup (st : Store) (wid : string) (w : Wallet) :
  balances_nonneg st -> wallets st !! wid = Some w -> 0 <= balance w.
Proof. intros H Hw. exact (map_Forall_lookup_1 _ _ _ _ H Hw). Qed.

Lemma transfer_funds_nonneg verify_pin user req uuid st :
  balances_nonneg st ->
  balances_nonneg (snd (transfer_funds verify_pin user req uuid st)).
Proof.
  intros Hst. unfold transfer_funds.
  destruct (pin_hash user) as [h|]; [|done].
  destruct (verify_pin (tr_pin req) h); [|done]. simpl.
  destruct (Z.leb_spec (tr_amount req) 0); [done|].
  destruct (user_wallet user st) as [[sid sw]|] eqn:Hu; [|done].
  destruct (Z.ltb_spec (balance sw) (tr_amount req)); [done|].
  destruct (find_wallet_by_number (tr_wallet_number req) (wallets st))
    as [[rid rw]|] eqn:Hf; [|done].
  destruct (String.eqb sid rid); [done|].
  destruct (fits_bigint _); simpl; [|done].
  unfold commit_transfer. repeat case_decide; try done. simpl.
  pose proof (balances_nonneg_lookup _ _ _ Hst (find_wallet_by_number_lookup _ _ _ _ Hf)).
  repeat apply balances_nonneg_put_transaction.
  apply balances_nonneg_put_wallet; [|simpl; lia].
  apply balances_nonneg_put_wallet; [done|simpl; lia].
Qed.

Lemma withdraw_funds_nonneg verify_pin user req rc ok uuid st :
  balances_nonneg st ->
  balances_nonneg (snd (withdraw_funds verify_pin user req rc ok uuid st)).
Proof.
  intros Hst. unfold withdraw_funds.
  destruct (withdrawal_request_valid req) eqn:Hv; simpl; [|done].
  destruct (pin_hash user) as [[|ch h']|]; [done| |done].
  destruct (verify_pin (wr_pin req) (String ch h')); simpl; [|done].
  destruct (user_wallet user st) as [[wid w]|] eqn:Hu; [|done].
  pose proof (user_wallet_lookup _ _ _ _ Hu) as Hw.
  destruct (Z.ltb_spec (balance w) (wr_amount req)); [done|].
  assert (H1 : balances_nonneg (put_wallet wid (set_balance (balance w - wr_amount req) w) st)).
  { apply balances_nonneg_put_wallet; [done|simpl; lia]. }
  rewrite debit_then_credit_id by done.
  destruct rc as [[|c c']|]; simpl; try done.
  destruct ok; simpl; [|done].
  case_decide; [done|]. by apply balances_nonneg_put_transaction.
Qed.

Lemma get_deposit_status_nonneg user ref vr st :
  balances_nonneg st -> balances_nonneg (snd (get_deposit_status user ref vr st)).
Proof.
  intros Hst. unfold balances_nonneg. rewrite get_deposit_status_wallets. exact Hst.
Qed.

Lemma credited_balance_nonneg float_credit (b : Z) (a : JAmount) (b' : Z) :
  0 <= b -> amount_nonneg a -> credited_balance float_credit b a = Some b' -> 0 <= b'.
Proof.
  intros Hb Ha. destruct a as [z|x|lit|]; simpl in *; [| |done|done].
  - destruct (fits_bigint (b + z)); [|done]. intros [= <-]. lia.
  - destruct (fits_bigint _); [|done]. intros [= <-]. destruct x; lia.
Qed.

Lemma paystack_webhook_nonneg hmac_sha512_hex json_loads PAYSTACK_SECRET_KEY float_credit
    sig body st :
  balances_nonneg st ->
  (forall ev data, json_loads body = ParseObject ev -> ev_data ev = Some data ->
     amount_nonneg (ev_amount data)) ->
  balances_nonneg
    (snd (paystack_webhook hmac_sha512_hex json_loads PAYSTACK_SECRET_KEY float_credit
            sig body st)).
Proof.
  intros Hst Hz. unfold paystack_webhook.
  destruct sig as [[|c s']|]; [done| |done].
  destruct (ascii_only _); simpl; [|done].
  destruct (String.eqb _ _); simpl; [|done].
  destruct (json_loads body) as [|exc| |ev] eqn:Hj; try done.
  destruct (bool_decide _); [done|].
  destruct (ev_data ev) as [data|] eqn:Hd; [|done].
  unfold charge_success.
  destruct (ev_reference data) as [r| |]; [|done|done].
  destruct (transactions st !! r) as [txn|]; [|done].
  case_decide; [done|].
  destruct (wallets st !! wallet_id txn) as [w|] eqn:Hw; [|done].
  destruct (credited_balance float_credit (balance w) (ev_amount data)) as [b'|] eqn:Hc;
    [|done].
  pose proof (balances_nonneg_lookup _ _ _ Hst Hw) as Hw0.
  pose proof (credited_balance_nonneg _ _ _ _ Hw0 (Hz ev data eq_refl Hd) Hc).
  apply balances_nonneg_put_transaction.
  apply balances_nonneg_put_wallet; [done|simpl; lia].
Qed.

(** C7 (amended): from a store whose wallets all have non-negative
    balances, a transfer, a withdrawal (with or without its compensating
    credit) and a deposit-status check always lead to such a store; a
    deposit webhook does so when the amount it carries is a non-negative
    integer, a boolean, or a value that is not a number (the handler credits
    [amount_paid] without checking its sign).  Float amounts are left out:
    the balance the database stores for them is not modelled. *)
Theorem balances_nonneg_preserved verify_pin hmac_sha512_hex json_loads
    PAYSTACK_SECRET_KEY float_credit (user : User) (treq : TransferRequest)
    (tuuid : string) (wreq : WithdrawalRequest) (rc : option string) (ok : bool)
    (wuuid : string) (ref : string) (vr : VerifyResult) (sig : option string)
    (body : string) (st : Store) :
  balances_nonneg st ->
  balances_nonneg (snd (transfer_funds verify_pin user treq tuuid st)) /\
  balances_nonneg (snd (withdraw_funds verify_pin user wreq rc ok wuuid st)) /\
  balances_nonneg (snd (get_deposit_status user ref vr st)) /\
  ((forall ev data, json_loads body = ParseObject ev -> ev_data ev = Some data ->
      amount_nonneg (ev_amount data)) ->
   balances_nonneg
     (snd (paystack_webhook hmac_sha512_hex json_loads PAYSTACK_SECRET_KEY float_credit
             sig body st))).
Proof.
  intros Hst. split; [|split; [|split]].
  - by apply transfer_funds_nonneg.
  - by apply withdraw_funds_nonneg.
  - by apply get_deposit_status_nonneg.
  - intros Hz. by apply paystack_webhook_nonneg.
Qed.

(** C7 counterexample: a signed [charge.success] webhook carrying the
    amount -100 for a pending deposit of wallet B (balance 0) leaves wallet
    B at -100. *)
Lemma paystack_webhook_negative_amount_breaks_nonneg :
  balances_nonneg store_zero /\
  fmap balance
    (wallets (snd (paystack_webhook digest_stub json_stub secret float_stub (sign body_neg)
                     body_neg store_zero)) !! "wB") = Some (-100).
Proof.
  split.
  - apply (bool_decide_unpack _). vm_compute. exact I.
  - vm_compute. reflexivity.
Qed.

(** ** Witnesses *)

Lemma transfer_funds_conservation_witness :
  exists sid sw rid rw sw' rw',
    user_wallet alice store0 = Some (sid, sw) /\
    find_wallet_by_number (tr_wallet_number transfer_5000) (wallets store0) = Some (rid, rw) /\
    wallets store0 !! rid = Some rw /\
    sid <> rid /\ 0 < tr_amount transfer_5000 /\
    wallets (snd (transfer_funds verify_pin_1234 alice transfer_5000 "u-1" store0)) !! sid = Some sw' /\
    wallets (snd (transfer_funds verify_pin_1234 alice transfer_5000 "u-1" store0)) !! rid = Some rw' /\
    balance sw' + tr_amount transfer_5000 = balance sw /\
    balance rw' - tr_amount transfer_5000 = balance rw /\
    (balance sw' - balance sw) + (balance rw' - balance rw) = 0.
Proof.
  apply (transfer_funds_conservation verify_pin_1234 alice transfer_5000 "u-1" store0
           (snd (transfer_funds verify_pin_1234 alice transfer_5000 "u-1" store0))
           [("status", JStr "success"); ("message", JStr "Transfer successful");
            ("reference", JStr "u-1")]).
  vm_compute. reflexivity.
Defined.

(** The same transfer with amount 0 is rejected. *)
Lemma transfer_funds_rejections_witness :
  exists code detail,
    transfer_funds verify_pin_1234 alice (mkTransferRequest "0987654321" 0 "1234") "u-1" store0
    = (HTTPError code detail, store0).
Proof.
  apply transfer_funds_rejections. left. simpl. lia.
Defined.

Lemma paystack_webhook_rejects_bad_signature_witness :
  exists resp,
    paystack_webhook digest_stub json_stub secret float_stub (Some "bad") body_5000
      (store_dep PENDING) = (resp, store_dep PENDING) /\
    paystack_webhook digest_stub (fun _ => ParseDecodeError) secret float_stub (Some "bad")
      body_5000 (store_dep PENDING) = (resp, store_dep PENDING) /\
    (resp = HTTPError 400 "Missing signature header" \/
     resp = HTTPError 400 "Invalid signature" \/
     (resp = Unhandled "TypeError" /\ exists s, Some "bad" = Some s /\ ascii_only s = false)).
Proof.
  apply paystack_webhook_rejects_bad_signature.
  right. right. exists "bad". split; [reflexivity|]. vm_compute. discriminate.
Defined.

Lemma paystack_webhook_credits_amount_paid_witness :
  paystack_webhook digest_stub json_stub secret float_stub (sign body_7000) body_7000
    (store_dep PENDING)
  = (Ok [("status", JStr "success")],
     put_transaction "ref-1" (set_status SUCCESS (mkTransaction 5000 DEPOSIT PENDING "wA"))
       (put_wallet "wA" (set_balance (balance wallet_A + 7000) wallet_A) (store_dep PENDING))).
Proof.
  refine (proj1 (paystack_webhook_credits_amount_paid digest_stub secret float_stub json_stub
           (sign body_7000) body_7000 (store_dep PENDING) (charge_ref1 7000)
           (charge_ref1_data 7000) "ref-1" (mkTransaction 5000 DEPOSIT PENDING "wA")
           wallet_A 7000 _ _ _ _ _ _) _).
  - exists (digest_stub secret body_7000). vm_compute.
    repeat split; first [reflexivity | discriminate].
  - reflexivity.
  - vm_compute. reflexivity.
  - discriminate.
  - vm_compute. reflexivity.
  - reflexivity.
  - vm_compute. reflexivity.
Defined.

Lemma paystack_webhook_success_is_final_witness :
  paystack_webhook digest_stub json_stub secret float_stub (sign body_5000) body_5000
    (store_dep SUCCESS)
  = (msg "ignored" "Transaction already processed", store_dep SUCCESS).
Proof.
  refine (proj1 (paystack_webhook_success_is_final digest_stub secret float_stub json_stub
           (sign body_5000) body_5000 (store_dep SUCCESS) (charge_ref1 5000)
           (charge_ref1_data 5000) "ref-1" (mkTransaction 5000 DEPOSIT SUCCESS "wA") _ _ _) _).
  - exists (digest_stub secret body_5000). vm_compute.
    repeat split; first [reflexivity | discriminate].
  - reflexivity.
  - vm_compute. reflexivity.
  - reflexivity.
Defined.

Lemma balances_nonneg_preserved_witness :
  balances_nonneg (snd (paystack_webhook digest_stub json_stub secret float_stub
                          (sign body_5000) body_5000 (store_dep PENDING))).
Proof.
  refine (proj2 (proj2 (proj2 (balances_nonneg_preserved verify_pin_1234 digest_stub
            json_stub secret float_stub alice transfer_5000 "u-1" withdraw_5000 None true
            "u-2" "ref-1" VerifyRaised (sign body_5000) body_5000 (store_dep PENDING) _))) _).
  - apply (bool_decide_unpack _). vm_compute. exact I.
  - intros ev data Hj Hd. vm_compute in Hj. injection Hj as <-.
    vm_compute in Hd. injection Hd as <-. simpl. lia.
Defined.

(** ** Total of the balances *)

Lemma map_fold_balance_insert (m : gmap string Wallet) (wid : string) (w w' : Wallet) :
  m !! wid = Some w ->
  map_fold (fun _ w acc => balance w + acc) 0 (<[wid := w']> m)
  = map_fold (fun _ w acc => balance w + acc) 0 m - balance w + balance w'.
Proof.
  intros Hw.
  assert (E1 : <[wid := w']> m = <[wid := w']> (delete wid m))
    by (symmetry; apply insert_delete_eq).
  assert (E2 : m = <[wid := w]> (delete wid m)) by (symmetry; by apply insert_delete_id).
  rewrite E1. rewrite E2 at 2.
  rewrite !map_fold_insert_L; [lia| intros; lia | apply lookup_delete_eq
                                | intros; lia | apply lookup_delete_eq].
Qed.

Lemma total_balance_put_wallet (st : Store) (wid : string) (w w' : Wallet) :
  wallets st !! wid = Some w ->
  total_balance (put_wallet wid w' st) = total_balance st - balance w + balance w'.
Proof. intros Hw. unfold total_balance, put_wallet; simpl. by apply map_fold_balance_insert. Qed.

Lemma total_balance_put_transaction (st : Store) (r : string) (t : Transaction) :
  total_balance (put_transaction r t st) = total_balance st.
Proof. done. Qed.

(** ** More on transfers *)

Lemma append_nonempty_neq (s t : string) : t <> "" -> s <> String.append s t.
Proof.
  intros Ht. induction s as [|c s IH]; simpl; [intros E; apply Ht; symmetry; exact E|].
  intros E. injection E. done.
Qed.

Section TransferExtras.

Variable verify_pin : string -> string -> bool.

(** A transfer never changes the total of the balances of all wallets:
    what leaves the sender reaches the recipient, whatever the outcome. *)
Theorem transfer_funds_total_balance (user : User) (req : TransferRequest)
    (uuid : string) (st : Store) :
  total_balance (snd (transfer_funds verify_pin user req uuid st)) = total_balance st.
Proof.
  unfold transfer_funds.
  destruct (pin_hash user) as [h|]; [|done].
  destruct (verify_pin (tr_pin req) h); [|done]. simpl.
  destruct (Z.leb_spec (tr_amount req) 0); [done|].
  destruct (user_wallet user st) as [[sid sw]|] eqn:Hu; [|done].
  destruct (Z.ltb_spec (balance sw) (tr_amount req)); [done|].
  destruct (find_wallet_by_number (tr_wallet_number req) (wallets st))
    as [[rid rw]|] eqn:Hf; [|done].
  destruct (String.eqb_spec sid rid) as [|Hne]; [done|].
  destruct (fits_bigint _); simpl; [|done].
  unfold commit_transfer. repeat case_decide; try done. simpl.
  pose proof (user_wallet_lookup _ _ _ _ Hu) as Hs.
  pose proof (find_wallet_by_number_lookup _ _ _ _ Hf) as Hr.
  rewrite !total_balance_put_transaction.
  rewrite (total_balance_put_wallet _ _ rw) by
    (unfold put_wallet; simpl; by rewrite lookup_insert_ne).
  rewrite (total_balance_put_wallet _ _ sw) by done.
  simpl. lia.
Qed.

(** A successful transfer adds exactly two rows to the transaction table,
    both new: under the generated reference the sender's debit of
    [-amount], under the reference with suffix "-credit" the recipient's
    credit of [+amount], both of type transfer and status success; every
    other row is as before, and the response carries the reference. *)
Theorem transfer_funds_records (user : User) (req : TransferRequest) (uuid : string)
    (st st' : Store) (body : list (string * JVal)) :
  transfer_funds verify_pin user req uuid st = (Ok body, st') ->
  exists sid sw rid rw,
    user_wallet user st = Some (sid, sw) /\
    find_wallet_by_number (tr_wallet_number req) (wallets st) = Some (rid, rw) /\
    transactions st !! uuid = None /\
    transactions st !! String.append uuid "-credit" = None /\
    body = [("status", JStr "success"); ("message", JStr "Transfer successful");
            ("reference", JStr uuid)] /\
    transactions st' !! uuid = Some (mkTransaction (- tr_amount req) TRANSFER SUCCESS sid) /\
    transactions st' !! String.append uuid "-credit"
      = Some (mkTransaction (tr_amount req) TRANSFER SUCCESS rid) /\
    (forall r, r <> uuid -> r <> String.append uuid "-credit" ->
       transactions st' !! r = transactions st !! r).
Proof.
  unfold transfer_funds.
  destruct (pin_hash user) as [h|]; [|discriminate].
  destruct (verify_pin (tr_pin req) h); [|discriminate]. simpl.
  destruct (Z.leb_spec (tr_amount req) 0); [discriminate|].
  destruct (user_wallet user st) as [[sid sw]|] eqn:Hu; [|discriminate].
  destruct (Z.ltb_spec (balance sw) (tr_amount req)); [discriminate|].
  destruct (find_wallet_by_number (tr_wallet_number req) (wallets st))
    as [[rid rw]|] eqn:Hf; [|discriminate].
  destruct (String.eqb_spec sid rid) as [|Hne]; [discriminate|].
  destruct (fits_bigint _); simpl; [|discriminate].
  unfold commit_transfer.
  case_decide as H1; [discriminate|]. case_decide as H2; [discriminate|].
  intros [= <- <-].
  assert (Hsuf : uuid <> String.append uuid "-credit").
  { by apply append_nonempty_neq. }
  exists sid, sw, rid, rw. unfold put_transaction, put_wallet; simpl.
  split; [done|]. split; [done|].
  split; [by apply eq_None_not_Some|]. split; [by apply eq_None_not_Some|].
  split; [done|].
  split; [by rewrite lookup_insert_ne, lookup_insert_eq|].
  split; [by rewrite lookup_insert_eq|].
  intros r Hr1 Hr2. by rewrite !lookup_insert_ne by congruence.
Qed.

(** A transfer whose generated reference already names a row of the
    transaction table never succeeds and changes nothing: the unique
    constraint makes the commit fail as a whole. *)
Theorem transfer_funds_reference_taken (user : User) (req : TransferRequest)
    (uuid : string) (st : Store) :
  is_Some (transactions st !! uuid) ->
  snd (transfer_funds verify_pin user req uuid st) = st /\
  forall body, fst (transfer_funds verify_pin user req uuid st) <> Ok body.
Proof.
  intros Hr. unfold transfer_funds.
  destruct (pin_hash user) as [h|]; [|done].
  destruct (verify_pin (tr_pin req) h); [|done]. simpl.
  destruct (Z.leb_spec (tr_amount req) 0); [done|].
  destruct (user_wallet user st) as [[sid sw]|]; [|done].
  destruct (Z.ltb_spec (balance sw) (tr_amount req)); [done|].
  destruct (find_wallet_by_number (tr_wallet_number req) (wallets st))
    as [[rid rw]|]; [|done].
  destruct (String.eqb sid rid); [done|].
  destruct (fits_bigint _); simpl; [|done].
  unfold commit_transfer. rewrite decide_True by done. done.
Qed.

End TransferExtras.

(** ** More on withdrawals *)

Section WithdrawExtras.

Variable verify_pin : string -> string -> bool.


(** A withdrawal with an invalid request, no PIN, a wrong PIN, no wallet, or
    a balance below the amount is rejected with an HTTP error before any
    debit: the store is unchanged. *)
Theorem withdraw_funds_rejections (user : User) (req : WithdrawalRequest)
    (rc : option string) (ok : bool) (uuid : string) (st : Store) :
  (withdrawal_request_valid req = false \/
   pin_hash user = None \/ pin_hash user = Some "" \/
   (exists h, pin_hash user = Some h /\ verify_pin (wr_pin req) h = false) \/
   user_wallet user st = None \/
   (exists wid w, user_wallet user st = Some (wid, w) /\ balance w < wr_amount req)) ->
  exists code detail,
    withdraw_funds verify_pin user req rc ok uuid st = (HTTPError code detail, st).
Proof.
  intros Hcase. unfold withdraw_funds.
  destruct (withdrawal_request_valid req) eqn:Hv; simpl; [|by do 2 eexists].
  destruct (pin_hash user) as [[|ch h']|] eqn:Hp; [by do 2 eexists| |by do 2 eexists].
  destruct (verify_pin (wr_pin req) (String ch h')) eqn:Hpin; simpl; [|by do 2 eexists].
  destruct (user_wallet user st) as [[wid w]|] eqn:Hu; [|by do 2 eexists].
  destruct (Z.ltb_spec (balance w) (wr_amount req)); [by do 2 eexists|].
  exfalso.
  destruct Hcase as [?|[?|[?|[(h & Hh & Hf)|[?|(wid' & w' & Hu' & Hb)]]]]]; simplify_eq; try congruence.
  lia.
Qed.

End WithdrawExtras.

(** ** Deposits *)

(** [initiate_deposit] never changes a wallet; it leaves the transaction
    table as it was, or adds exactly one new row: under the fresh reference,
    a pending deposit of the requested (positive) amount owned by the
    user's wallet. *)
Theorem initiate_deposit_frame (user : User) (a : Z) (init : InitResult) (uuid : string)
    (st : Store) :
  let st' := snd (initiate_deposit user a init uuid st) in
  wallets st' = wallets st /\
  (transactions st' = transactions st \/
   exists wid w,
     0 < a /\ user_wallet user st = Some (wid, w) /\ transactions st !! uuid = None /\
     transactions st' = <[uuid := mkTransaction a DEPOSIT PENDING wid]> (transactions st)).
Proof.
  unfold initiate_deposit.
  destruct (Z.leb_spec a 0); [auto|].
  destruct init as [e|url]; [auto|].
  destruct (user_wallet user st) as [[wid w]|] eqn:Hu; [|auto].
  destruct (fits_bigint a); simpl; [|auto].
  case_decide as Hr; [auto|].
  destruct url; simpl; (split; [done|right]); exists wid, w;
    (split_and!; [lia|done|by apply eq_None_not_Some|done]).
Qed.

(** A deposit request with a non-positive amount, one whose gateway
    initialisation raises, and one from a user without a wallet are
    rejected with an HTTP error (400, 500 and 400) and record nothing. *)
Theorem initiate_deposit_rejections (user : User) (a : Z) (init : InitResult)
    (uuid : string) (st : Store) :
  (a <= 0 \/ (exists e, init = InitRaised e) \/ user_wallet user st = None) ->
  exists code detail,
    initiate_deposit user a init uuid st = (HTTPError code detail, st) /\
    (code = 400 \/ code = 500).
Proof.
  intros Hcase. unfold initiate_deposit.
  destruct (Z.leb_spec a 0); [eauto|].
  destruct init as [e|url]; [eauto|].
  destruct (user_wallet user st) as [[wid w]|] eqn:Hu; [|eauto].
  exfalso. destruct Hcase as [?|[[e He]|?]]; [lia|discriminate|discriminate].
Qed.

Section DepositRoundTrip.

Variable hmac_sha512_hex : string -> string -> string.
Variable json_loads : string -> JSONParse.
Variable PAYSTACK_SECRET_KEY : string.
Variable float_credit : Z -> string -> option Z.

(** A deposit initiated for amount [a] and then confirmed by an admitted
    [charge.success] webhook for its reference paying the integer [a]
    credits the user's wallet by exactly [a] and marks the Transaction
    success, when the credited balance fits the signed 64-bit column; a
    second delivery of that webhook answers "already processed" and changes
    nothing. *)
Theorem deposit_then_webhook (user : User) (a : Z) (url uuid : string) (st st1 : Store)
    body sig payload ev data (wid : string) (w : Wallet) :
  initiate_deposit user a (InitData (Some url)) uuid st = (Ok body, st1) ->
  user_wallet user st = Some (wid, w) ->
  webhook_admitted hmac_sha512_hex json_loads PAYSTACK_SECRET_KEY sig payload ev data ->
  ev_reference data = RefStr uuid -> ev_amount data = AmtInt a ->
  fits_bigint (balance w + a) = true ->
  let '(r2, st2) :=
    paystack_webhook hmac_sha512_hex json_loads PAYSTACK_SECRET_KEY float_credit sig payload st1 in
  r2 = Ok [("status", JStr "success")] /\
  wallets st2 !! wid = Some (set_balance (balance w + a) w) /\
  transactions st2 !! uuid = Some (mkTransaction a DEPOSIT SUCCESS wid) /\
  paystack_webhook hmac_sha512_hex json_loads PAYSTACK_SECRET_KEY float_credit sig payload st2
    = (msg "ignored" "Transaction already processed", st2).
Proof.
  intros Hdep Hu Hadm Hr Ha Hf.
  pose proof (user_wallet_lookup _ _ _ _ Hu) as Hw.
  unfold initiate_deposit in Hdep.
  destruct (Z.leb a 0); [discriminate|]. rewrite Hu in Hdep.
  destruct (fits_bigint a); simpl in Hdep; [|discriminate].
  case_decide; [discriminate|]. injection Hdep as _ <-.
  rewrite (paystack_webhook_admitted _ _ _ _ _ _ _ _ _ Hadm).
  unfold charge_success. rewrite Hr. simpl. rewrite lookup_insert_eq. simpl.
  rewrite Hw, Ha. simpl. rewrite Hf.
  split_and!; [done|unfold put_transaction, put_wallet; simpl; by rewrite lookup_insert_eq
              |unfold put_transaction; simpl; by rewrite lookup_insert_eq|].
  rewrite (paystack_webhook_admitted _ _ _ _ _ _ _ _ _ Hadm).
  unfold charge_success. rewrite Hr. simpl. rewrite lookup_insert_eq. simpl. done.
Qed.

End DepositRoundTrip.

(** ** What the webhook may change *)

Section WebhookFrame.

Variable hmac_sha512_hex : string -> string -> string.
Variable json_loads : string -> JSONParse.
Variable PAYSTACK_SECRET_KEY : string.
Variable float_credit : Z -> string -> option Z.

(** Every delivery either leaves the store exactly as it was, or answers
    success after an admitted [charge.success] event for an existing
    Transaction not yet successful, whose wallet exists, and whose amount
    the commit could add to the balance ([credited_balance]: an integer or
    a boolean that keeps the balance in range, or a float the database
    stored): the store then differs only in that Transaction, set to
    success, and its wallet, holding the credited balance. *)
Theorem paystack_webhook_frame (sig : option string) (payload : string) (st : Store) :
  let '(r, st') :=
    paystack_webhook hmac_sha512_hex json_loads PAYSTACK_SECRET_KEY float_credit sig payload st in
  st' = st \/
  (r = Ok [("status", JStr "success")] /\
   exists ev data ref txn w b',
     webhook_admitted hmac_sha512_hex json_loads PAYSTACK_SECRET_KEY sig payload ev data /\
     ev_reference data = RefStr ref /\ transactions st !! ref = Some txn /\
     status txn <> SUCCESS /\ wallets st !! wallet_id txn = Some w /\
     credited_balance float_credit (balance w) (ev_amount data) = Some b' /\
     st' = put_transaction ref (set_status SUCCESS txn)
             (put_wallet (wallet_id txn) (set_balance b' w) st)).
Proof.
  unfold paystack_webhook.
  destruct sig as [[|c s]|] eqn:Hsig; [auto| |auto].
  destruct (ascii_only (String c s)) eqn:Hasc; simpl; [|auto].
  destruct (String.eqb (hmac_sha512_hex PAYSTACK_SECRET_KEY payload) (String c s)) eqn:Hh;
    simpl; [|auto].
  destruct (json_loads payload) as [|exc| |ev] eqn:Hj; try auto.
  case_bool_decide as He; [auto|].
  destruct (ev_data ev) as [data|] eqn:Hd; [|auto].
  unfold charge_success.
  destruct (ev_reference data) as [ref| |] eqn:Hr; [|auto|auto].
  destruct (transactions st !! ref) as [txn|] eqn:Ht; simpl; [|auto].
  case_decide as Hs; [auto|].
  destruct (wallets st !! wallet_id txn) as [w|] eqn:Hw; [|auto].
  destruct (credited_balance float_credit (balance w) (ev_amount data)) as [b'|] eqn:Hc;
    [|auto].
  right. split; [done|]. exists ev, data, ref, txn, w, b'. split_and!; try done.
  exists (String c s). split_and!; [done|done|done|by apply String.eqb_eq|done| |done].
  destruct (decide (ev_event ev = Some "charge.success")); tauto.
Qed.

End WebhookFrame.

(** ** Access to a deposit's status *)

(** A status query for an unknown reference is answered 404, and one for a
    Transaction that is not owned by the caller's wallet (or by a caller
    with no wallet) is answered 403; neither consults the gateway's answer
    nor changes the store. *)
Theorem get_deposit_status_access (user : User) (ref : string) (vr : VerifyResult)
    (st : Store) :
  (transactions st !! ref = None ->
   get_deposit_status user ref vr st = (HTTPError 404 "Transaction not found", st)) /\
  (forall txn, transactions st !! ref = Some txn ->
   (forall wid w, user_wallet user st = Some (wid, w) -> wallet_id txn <> wid) ->
   get_deposit_status user ref vr st
     = (HTTPError 403 "Not authorized to view this transaction", st)).
Proof.
  unfold get_deposit_status. split; [by intros ->|].
  intros txn -> Hown.
  destruct (user_wallet user st) as [[wid w]|] eqn:Hu; [|done].
  destruct (String.eqb_spec (wallet_id txn) wid) as [E|]; [|done].
  exfalso. exact (Hown wid w eq_refl E).
Qed.

(** ** Listing transactions *)

Section GetTransactionsProofs.

Variable created_at : string -> Z.

Lemma get_transactions_query_ok (skip limit : Z) :
  0 <= skip -> 1 <= limit <= 100 ->
  negb (Z.leb 0 skip && Z.leb 1 limit && Z.leb limit 100) = false.
Proof.
  intros Hs [Hl1 Hl2].
  apply Z.leb_le in Hs, Hl1, Hl2. by rewrite Hs, Hl1, Hl2.
Qed.

(** A query with [skip < 0], [limit < 1] or [limit > 100] is refused with
    422, and a valid query from a user without a wallet with 404. *)
Theorem get_transactions_errors (user : User) (skip limit : Z) (st : Store) :
  (~ (0 <= skip /\ 1 <= limit <= 100) ->
   get_transactions created_at user skip limit st = Raised 422 "Unprocessable Entity") /\
  (0 <= skip -> 1 <= limit <= 100 -> user_wallet user st = None ->
   get_transactions created_at user skip limit st = Raised 404 "No wallet found").
Proof.
  unfold get_transactions. split.
  - intros Hq.
    destruct (Z.leb_spec 0 skip), (Z.leb_spec 1 limit), (Z.leb_spec limit 100);
      simpl; try done; exfalso; lia.
  - intros Hs Hl Hu. rewrite get_transactions_query_ok by done. by rewrite Hu.
Qed.

(** A returned page has at most [limit] (so at most 100) rows; each row is
    a row of the transaction table owned by the caller's wallet; no
    reference appears twice; and the rows are ordered newest first. *)
Theorem get_transactions_page (user : User) (skip limit : Z) (st : Store)
    (rows : list (string * Transaction)) :
  get_transactions created_at user skip limit st = Returned rows ->
  exists wid w,
    user_wallet user st = Some (wid, w) /\
    (length rows <= Z.to_nat limit <= 100)%nat /\
    (forall r t, (r, t) ∈ rows -> transactions st !! r = Some t /\ wallet_id t = wid) /\
    NoDup rows.*1 /\
    StronglySorted (newer_first created_at) rows.
Proof.
  unfold get_transactions.
  destruct (negb (Z.leb 0 skip && Z.leb 1 limit && Z.leb limit 100)) eqn:Hq;
    [discriminate|].
  destruct (user_wallet user st) as [[wid w]|] eqn:Hu; [|discriminate].
  intros [= <-].
  set (rows := filter (fun rt => wallet_id rt.2 = wid) (map_to_list (transactions st))).
  set (ordered := merge_sort (newer_first created_at) rows).
  assert (Hmem : forall x, x ∈ take (Z.to_nat limit) (drop (Z.to_nat skip) ordered) ->
            transactions st !! x.1 = Some x.2 /\ wallet_id x.2 = wid).
  { intros [r t] Hin.
    eapply elem_of_sublist in Hin; [|apply sublist_take].
    eapply elem_of_sublist in Hin; [|apply sublist_drop].
    unfold ordered in Hin. rewrite (merge_sort_Permutation _ rows) in Hin.
    unfold rows in Hin. apply list_elem_of_filter in Hin as [Hw Hin].
    apply elem_of_map_to_list in Hin. done. }
  exists wid, w. split_and!.
  - done.
  - rewrite length_take. lia.
  - apply negb_false_iff, andb_true_iff in Hq as [Hq Hl2].
    apply Z.leb_le in Hl2. lia.
  - intros r t Hin. exact (Hmem (r, t) Hin).
  - apply NoDup_fmap_fst.
    + intros r t1 t2 H1 H2.
      apply Hmem in H1 as [H1 _], H2 as [H2 _]. simpl in *. congruence.
    + eapply sublist_NoDup; [|apply sublist_take].
      eapply sublist_NoDup; [|apply sublist_drop].
      unfold ordered. rewrite (merge_sort_Permutation _ rows).
      unfold rows. apply NoDup_filter, NoDup_map_to_list.
  - assert (Hs : StronglySorted (newer_first created_at) ordered).
    { unfold ordered. apply StronglySorted_merge_sort; apply _. }
    rewrite <- (take_drop (Z.to_nat skip) ordered) in Hs.
    apply StronglySorted_app_1_r in Hs.
    rewrite <- (take_drop (Z.to_nat limit) (drop (Z.to_nat skip) ordered)) in Hs.
    by apply StronglySorted_app_1_l in Hs.
Qed.

Lemma merge_sort_db_page (wid : string) (st : Store) (skip limit : Z) :
  db_page created_at wid st skip limit
    (take (Z.to_nat limit) (drop (Z.to_nat skip)
       (merge_sort (newer_first created_at) (wallet_rows wid st)))).
Proof.
  exists (merge_sort (newer_first created_at) (wallet_rows wid st)).
  split_and!; [apply merge_sort_Permutation| |done].
  apply Sorted_merge_sort. apply _.
Qed.

(** With distinct timestamps the database has a single admissible order,
    the one [get_transactions] uses. *)
Lemma db_order_unique (wid : string) (st : Store) (ordered : list (string * Transaction)) :
  distinct_stamps created_at wid st ->
  ordered ≡ₚ wallet_rows wid st -> Sorted (newer_first created_at) ordered ->
  ordered = merge_sort (newer_first created_at) (wallet_rows wid st).
Proof.
  intros Hd Hp Hs.
  apply (Sorted_unique_strong (newer_first created_at));
    [| done | apply Sorted_merge_sort; apply _ | by rewrite merge_sort_Permutation].
  intros [r1 t1] [r2 t2] H1 H2 Hle1 Hle2.
  rewrite Hp in H1. rewrite merge_sort_Permutation in H2.
  unfold wallet_rows in H1, H2.
  apply list_elem_of_filter in H1 as [Hw1 H1], H2 as [Hw2 H2].
  apply elem_of_map_to_list in H1, H2.
  unfold newer_first in *; simpl in *.
  assert (r1 = r2) as <- by (eapply Hd; eauto; lia).
  congruence.
Qed.

Lemma db_page_iff (wid : string) (st : Store) (skip limit : Z)
    (rows : list (string * Transaction)) :
  distinct_stamps created_at wid st ->
  db_page created_at wid st skip limit rows <->
  rows = take (Z.to_nat limit) (drop (Z.to_nat skip)
           (merge_sort (newer_first created_at) (wallet_rows wid st))).
Proof.
  intros Hd. split.
  - intros (ordered & Hp & Hs & ->). by rewrite (db_order_unique wid st ordered).
  - intros ->. apply merge_sort_db_page.
Qed.

Lemma get_transactions_returned (user : User) (skip limit : Z) (st : Store)
    (wid : string) (w : Wallet) :
  0 <= skip -> 1 <= limit <= 100 -> user_wallet user st = Some (wid, w) ->
  get_transactions created_at user skip limit st
  = Returned (take (Z.to_nat limit) (drop (Z.to_nat skip)
                (merge_sort (newer_first created_at) (wallet_rows wid st)))).
Proof.
  intros Hs Hl Hu. unfold get_transactions.
  rewrite get_transactions_query_ok by done. by rewrite Hu.
Qed.

Lemma distinct_stamps_NoDup (wid : string) (st : Store) :
  NoDup ((fun rt => created_at rt.1) <$> wallet_rows wid st) ->
  distinct_stamps created_at wid st.
Proof.
  intros Hnd r1 t1 r2 t2 H1 H2 W1 W2 Hc.
  assert (E1 : (r1, t1) ∈ wallet_rows wid st).
  { apply list_elem_of_filter. split; [done|]. by apply elem_of_map_to_list. }
  assert (E2 : (r2, t2) ∈ wallet_rows wid st).
  { apply list_elem_of_filter. split; [done|]. by apply elem_of_map_to_list. }
  apply list_elem_of_lookup_1 in E1 as [i Hi], E2 as [j Hj].
  assert (i = j) as <-.
  { eapply (NoDup_lookup _ _ _ (created_at r1)); [exact Hnd|..];
      rewrite list_lookup_fmap; [rewrite Hi|rewrite Hj]; simpl; congruence. }
  congruence.
Qed.

(** Consecutive pages fit together when no two rows of the wallet share a
    timestamp: whatever the database answers to the page of [l1] rows from
    [skip] and to the page of [l2] rows from [skip + l1], their
    concatenation is the one answer to the page of [l1 + l2] rows from
    [skip], and the handler returns it. *)
Theorem get_transactions_pages_concat (user : User) (skip l1 l2 : Z) (st : Store)
    (wid : string) (w : Wallet) (p1 p2 : list (string * Transaction)) :
  0 <= skip -> 1 <= l1 -> 1 <= l2 -> l1 + l2 <= 100 ->
  user_wallet user st = Some (wid, w) ->
  distinct_stamps created_at wid st ->
  db_page created_at wid st skip l1 p1 ->
  db_page created_at wid st (skip + l1) l2 p2 ->
  (forall p, db_page created_at wid st skip (l1 + l2) p <-> p = (p1 ++ p2)%list) /\
  get_transactions created_at user skip (l1 + l2) st = Returned (p1 ++ p2)%list.
Proof.
  intros Hs H1 H2 H12 Hu Hd Hp1 Hp2.
  apply (db_page_iff _ _ _ _ _ Hd) in Hp1, Hp2.
  assert (E : (p1 ++ p2)%list
              = take (Z.to_nat (l1 + l2)) (drop (Z.to_nat skip)
                  (merge_sort (newer_first created_at) (wallet_rows wid st)))).
  { rewrite Hp1, Hp2.
    rewrite (Z2Nat.inj_add skip l1), (Z2Nat.inj_add l1 l2) by lia.
    rewrite <- drop_drop. apply take_take_drop. }
  split.
  - intros p. rewrite (db_page_iff _ _ _ _ _ Hd). by rewrite E.
  - rewrite E. apply (get_transactions_returned _ _ _ _ _ w); [lia|lia|done].
Qed.

(** Paging reaches every row when no two rows of the wallet share a
    timestamp: for any valid page size, each Transaction of the caller's
    wallet is on the page at some offset, whatever answer the database
    gives to that page's query; the handler returns that page. *)
Theorem get_transactions_reachable (user : User) (limit : Z) (st : Store)
    (wid : string) (w : Wallet) (r : string) (t : Transaction) :
  1 <= limit <= 100 ->
  user_wallet user st = Some (wid, w) ->
  distinct_stamps created_at wid st ->
  transactions st !! r = Some t -> wallet_id t = wid ->
  exists skip rows,
    0 <= skip /\ get_transactions created_at user skip limit st = Returned rows /\
    (r, t) ∈ rows /\
    (forall rows', db_page created_at wid st skip limit rows' -> rows' = rows).
Proof.
  intros Hl Hu Hd Ht Hw.
  set (ordered := merge_sort (newer_first created_at) (wallet_rows wid st)).
  assert (Hin : (r, t) ∈ ordered).
  { unfold ordered. rewrite merge_sort_Permutation.
    apply list_elem_of_filter. split; [done|]. by apply elem_of_map_to_list. }
  apply list_elem_of_lookup_1 in Hin as [i Hi].
  set (n := Z.to_nat limit).
  assert (Hn : (0 < n)%nat) by lia.
  set (skip := Z.of_nat (n * (i / n))).
  exists skip, (take n (drop (Z.to_nat skip) ordered)).
  split_and!.
  - lia.
  - apply (get_transactions_returned _ _ _ _ _ w); [lia|done|done].
  - unfold skip. rewrite Nat2Z.id. apply elem_of_take. exists (i mod n)%nat. split.
    + rewrite lookup_drop. rewrite <- Nat.div_mod by lia. exact Hi.
    + apply Nat.mod_upper_bound. lia.
  - intros rows'. by rewrite (db_page_iff _ _ _ _ _ Hd).
Qed.

End GetTransactionsProofs.

(** ** Authentication and permissions *)

Lemma find_split {A} (f : A -> bool) (l : list A) (x : A) :
  List.find f l = Some x <->
  exists l1 l2, l = (l1 ++ x :: l2)%list /\ Forall (fun y => f y = false) l1 /\ f x = true.
Proof.
  split.
  - induction l as [|y l IH]; simpl; [discriminate|].
    destruct (f y) eqn:Hy.
    + intros [= <-]. by exists [], l.
    + intros H. destruct (IH H) as (l1 & l2 & -> & Hl1 & Hx).
      exists (y :: l1), l2. split_and!; [done|by constructor|done].
  - intros (l1 & l2 & -> & Hl1 & Hx).
    induction Hl1 as [|y l1 Hy Hl1 IH]; simpl; [by rewrite Hx|by rewrite Hy].
Qed.

Section AuthProofs.

Variable hash_api_key : string -> string.
Variable get_user_from_jwt : string -> option User.

(** An API key is accepted exactly when, scanning the key table in order,
    the first row whose stored hash is the hash of the presented key is
    active and does not expire before the current time (a key expiring at
    this very instant is accepted); the accepted row is that one. *)
Theorem get_user_from_api_key_spec (api_key : string) (keys : list APIKey) (now : Z)
    (kr : APIKey) :
  get_user_from_api_key hash_api_key api_key keys now = Some kr <->
  exists keys1 keys2,
    keys = (keys1 ++ kr :: keys2)%list /\
    Forall (fun k => key_hash k <> hash_api_key api_key) keys1 /\
    key_hash kr = hash_api_key api_key /\ is_active kr = true /\ now <= expires_at kr.
Proof.
  unfold get_user_from_api_key. split.
  - destruct (List.find _ keys) as [k|] eqn:Hf; [|discriminate].
    destruct (is_active k) eqn:Ha; simpl; [|discriminate].
    destruct (Z.ltb_spec (expires_at k) now); [discriminate|].
    intros [= <-].
    apply find_split in Hf as (l1 & l2 & -> & Hl1 & Hk).
    exists l1, l2. split_and!; [done| |by apply String.eqb_eq|done|lia].
    eapply Forall_impl; [exact Hl1|]. intros y Hy E. simpl in Hy.
    rewrite E, String.eqb_refl in Hy. discriminate.
  - intros (l1 & l2 & -> & Hl1 & Hk & Ha & Hle).
    rewrite (proj2 (find_split _ _ kr)).
    + rewrite Ha. simpl. destruct (Z.ltb_spec (expires_at kr) now); [lia|done].
    + exists l1, l2. split_and!; [done| |by rewrite Hk, String.eqb_refl].
      eapply Forall_impl; [exact Hl1|]. intros y Hy. simpl.
      destruct (String.eqb_spec (key_hash y) (hash_api_key api_key)); [done|done].
Qed.

(** Only the first row with a matching hash is looked at: when it is
    inactive or expired the key is refused, even if a later row with the
    same hash would be valid. *)
Theorem get_user_from_api_key_first_match (api_key : string) (keys1 keys2 : list APIKey)
    (now : Z) (k : APIKey) :
  Forall (fun k' => key_hash k' <> hash_api_key api_key) keys1 ->
  key_hash k = hash_api_key api_key ->
  (is_active k = false \/ expires_at k < now) ->
  get_user_from_api_key hash_api_key api_key (keys1 ++ k :: keys2)%list now = None.
Proof.
  intros Hpre Hk Hbad. unfold get_user_from_api_key.
  induction Hpre as [|k' keys1 Hk' Hpre IH]; simpl.
  - rewrite Hk, String.eqb_refl.
    destruct Hbad as [-> | Hlt]; [done|].
    destruct (is_active k); simpl; [|done].
    destruct (Z.ltb_spec (expires_at k) now); [done|lia].
  - destruct (String.eqb_spec (key_hash k') (hash_api_key api_key)); [done|].
    exact IH.
Qed.

(** A user named by a valid bearer token passes every permission check,
    whatever API key is sent alongside: the token's context is an admin
    context. *)
Theorem require_permission_jwt_admin (permission c : string) (api_key_str : option string)
    (keys : list APIKey) (now : Z) (u : User) :
  get_user_from_jwt c = Some u ->
  require_permission hash_api_key get_user_from_jwt permission (Some c) api_key_str keys now
    = Returned u.
Proof.
  intros Hj. unfold require_permission, get_auth_context. simpl. by rewrite Hj.
Qed.

(** Access through an API key is granted exactly when the key's
    permissions list the requested permission; otherwise the request is
    refused with 403. Without a bearer user and without a valid key the
    request is refused with 401. *)
Theorem require_permission_api_key (permission : string) (auth_creds : option string)
    (k : string) (keys : list APIKey) (now : Z) (kr : APIKey) :
  (forall c, auth_creds = Some c -> get_user_from_jwt c = None) ->
  k <> "" ->
  get_user_from_api_key hash_api_key k keys now = Some kr ->
  require_permission hash_api_key get_user_from_jwt permission auth_creds (Some k) keys now
    = if bool_decide (permission ∈ key_permissions kr) then Returned (key_user kr)
      else Raised 403 (String.append "Missing required permission: '"
                         (String.append permission "'")).
Proof.
  intros Hj Hk Hkr. unfold require_permission, get_auth_context.
  destruct auth_creds as [c|]; [rewrite (Hj c eq_refl)|]; 
    (destruct k as [|ch k']; [done|]); rewrite Hkr; done.
Qed.

(** Without a user from a bearer token and without a valid non-empty API
    key, every permission check fails with 401. *)
Theorem require_permission_unauthenticated (permission : string)
    (auth_creds api_key_str : option string) (keys : list APIKey) (now : Z) :
  (forall c, auth_creds = Some c -> get_user_from_jwt c = None) ->
  (forall k, api_key_str = Some k -> k <> "" ->
     get_user_from_api_key hash_api_key k keys now = None) ->
  require_permission hash_api_key get_user_from_jwt permission auth_creds api_key_str keys now
    = Raised 401 "Not authenticated. Provide a valid Bearer token or x-api-key.".
Proof.
  intros Hj Hk. unfold require_permission, get_auth_context.
  destruct auth_creds as [c|]; [rewrite (Hj c eq_refl)|];
    (destruct api_key_str as [[|ch k']|]; [done| |done]);
    rewrite (Hk _ eq_refl) by done; done.
Qed.

End AuthProofs.

(** ** Instances of the properties above on the scenarios *)

Lemma transfer_funds_records_witness :
  exists sid sw rid rw,
    user_wallet alice store0 = Some (sid, sw) /\
    find_wallet_by_number (tr_wallet_number transfer_5000) (wallets store0) = Some (rid, rw) /\
    transactions store0 !! "u-1" = None /\
    transactions store0 !! String.append "u-1" "-credit" = None /\
    [("status", JStr "success"); ("message", JStr "Transfer successful");
     ("reference", JStr "u-1")]
      = [("status", JStr "success"); ("message", JStr "Transfer successful");
         ("reference", JStr "u-1")] /\
    transactions (snd (transfer_funds verify_pin_1234 alice transfer_5000 "u-1" store0)) !! "u-1"
      = Some (mkTransaction (- tr_amount transfer_5000) TRANSFER SUCCESS sid) /\
    transactions (snd (transfer_funds verify_pin_1234 alice transfer_5000 "u-1" store0))
      !! String.append "u-1" "-credit"
      = Some (mkTransaction (tr_amount transfer_5000) TRANSFER SUCCESS rid) /\
    (forall r, r <> "u-1" -> r <> String.append "u-1" "-credit" ->
       transactions (snd (transfer_funds verify_pin_1234 alice transfer_5000 "u-1" store0)) !! r
       = transactions store0 !! r).
Proof.
  apply (transfer_funds_records verify_pin_1234 alice transfer_5000 "u-1" store0
           (snd (transfer_funds verify_pin_1234 alice transfer_5000 "u-1" store0))).
  vm_compute. reflexivity.
Defined.

Lemma transfer_funds_reference_taken_witness :
  snd (transfer_funds verify_pin_1234 alice transfer_5000 "u-1"
         (put_transaction "u-1" (mkTransaction 1 DEPOSIT PENDING "wA") store0))
    = put_transaction "u-1" (mkTransaction 1 DEPOSIT PENDING "wA") store0 /\
  forall body, fst (transfer_funds verify_pin_1234 alice transfer_5000 "u-1"
         (put_transaction "u-1" (mkTransaction 1 DEPOSIT PENDING "wA") store0)) <> Ok body.
Proof.
  apply transfer_funds_reference_taken.
  exists (mkTransaction 1 DEPOSIT PENDING "wA"). vm_compute. reflexivity.
Defined.

Lemma withdraw_funds_rejections_witness :
  exists code detail,
    withdraw_funds verify_pin_1234 alice
      (mkWithdrawalRequest 60000 "0123456789" "058" "Test User" "1234") None false "u-2" store0
    = (HTTPError code detail, store0).
Proof.
  apply withdraw_funds_rejections.
  right; right; right; right; right. exists "wA", wallet_A. split.
  - vm_compute. reflexivity.
  - simpl. lia.
Defined.

Lemma initiate_deposit_rejections_witness :
  exists code detail,
    initiate_deposit alice 0 (InitData (Some "https://pay")) "u-3" store0
      = (HTTPError code detail, store0) /\
    (code = 400 \/ code = 500).
Proof. apply initiate_deposit_rejections. left. lia. Defined.

Lemma deposit_then_webhook_witness :
  let '(r2, st2) :=
    paystack_webhook digest_stub json_stub secret float_stub (sign body_5000) body_5000
      (snd (initiate_deposit alice 5000 (InitData (Some "https://pay")) "ref-1" store0)) in
  r2 = Ok [("status", JStr "success")] /\
  wallets st2 !! "wA" = Some (set_balance (balance wallet_A + 5000) wallet_A) /\
  transactions st2 !! "ref-1" = Some (mkTransaction 5000 DEPOSIT SUCCESS "wA") /\
  paystack_webhook digest_stub json_stub secret float_stub (sign body_5000) body_5000 st2
    = (msg "ignored" "Transaction already processed", st2).
Proof.
  apply (deposit_then_webhook digest_stub json_stub secret float_stub alice 5000
           "https://pay" "ref-1" store0
           (snd (initiate_deposit alice 5000 (InitData (Some "https://pay")) "ref-1" store0))
           [("authorization_url", JStr "https://pay"); ("reference", JStr "ref-1")]
           (sign body_5000) body_5000 (charge_ref1 5000) (charge_ref1_data 5000)
           "wA" wallet_A).
  - vm_compute. reflexivity.
  - vm_compute. reflexivity.
  - exists (digest_stub secret body_5000). vm_compute.
    repeat split; first [reflexivity | discriminate].
  - reflexivity.
  - reflexivity.
  - vm_compute. reflexivity.
Defined.

Lemma get_transactions_page_witness :
  exists wid w,
    user_wallet alice store_hist = Some (wid, w) /\
    (length [("t-2", mkTransaction (-300) TRANSFER SUCCESS "wA");
             ("t-1", mkTransaction 5000 DEPOSIT SUCCESS "wA")] <= Z.to_nat 20 <= 100)%nat /\
    (forall r t, (r, t) ∈ [("t-2", mkTransaction (-300) TRANSFER SUCCESS "wA");
                         ("t-1", mkTransaction 5000 DEPOSIT SUCCESS "wA")] ->
       transactions store_hist !! r = Some t /\ wallet_id t = wid) /\
    NoDup [("t-2", mkTransaction (-300) TRANSFER SUCCESS "wA");
           ("t-1", mkTransaction 5000 DEPOSIT SUCCESS "wA")].*1 /\
    StronglySorted (newer_first stamp)
      [("t-2", mkTransaction (-300) TRANSFER SUCCESS "wA");
       ("t-1", mkTransaction 5000 DEPOSIT SUCCESS "wA")].
Proof.
  apply (get_transactions_page stamp alice 0 20 store_hist).
  vm_compute. reflexivity.
Defined.

(** Wallet A's two rows have the stamps 1 and 2: the first page of one
    row and the second page of one row make up the page of two rows. *)
Lemma get_transactions_pages_concat_witness :
  (forall p, db_page stamp "wA" store_hist 0 (1 + 1) p <->
     p = ([("t-2", mkTransaction (-300) TRANSFER SUCCESS "wA")] ++
          [("t-1", mkTransaction 5000 DEPOSIT SUCCESS "wA")])%list) /\
  get_transactions stamp alice 0 (1 + 1) store_hist
  = Returned ([("t-2", mkTransaction (-300) TRANSFER SUCCESS "wA")] ++
              [("t-1", mkTransaction 5000 DEPOSIT SUCCESS "wA")])%list.
Proof.
  apply (get_transactions_pages_concat stamp alice 0 1 1 store_hist "wA" wallet_A).
  - lia.
  - lia.
  - lia.
  - lia.
  - vm_compute. reflexivity.
  - apply distinct_stamps_NoDup. apply (bool_decide_unpack _). vm_compute. exact I.
  - replace [("t-2", mkTransaction (-300) TRANSFER SUCCESS "wA")]
      with (take (Z.to_nat 1) (drop (Z.to_nat 0)
              (merge_sort (newer_first stamp) (wallet_rows "wA" store_hist))))
      by (vm_compute; reflexivity).
    apply merge_sort_db_page.
  - replace [("t-1", mkTransaction 5000 DEPOSIT SUCCESS "wA")]
      with (take (Z.to_nat 1) (drop (Z.to_nat (0 + 1))
              (merge_sort (newer_first stamp) (wallet_rows "wA" store_hist))))
      by (vm_compute; reflexivity).
    apply merge_sort_db_page.
Defined.

Lemma get_transactions_reachable_witness :
  exists skip rows,
    0 <= skip /\ get_transactions stamp alice skip 1 store_hist = Returned rows /\
    ("t-1", mkTransaction 5000 DEPOSIT SUCCESS "wA") ∈ rows /\
    (forall rows', db_page stamp "wA" store_hist skip 1 rows' -> rows' = rows).
Proof.
  apply (get_transactions_reachable stamp alice 1 store_hist "wA" wallet_A).
  - lia.
  - vm_compute. reflexivity.
  - apply distinct_stamps_NoDup. apply (bool_decide_unpack _). vm_compute. exact I.
  - vm_compute. reflexivity.
  - reflexivity.
Defined.

(** The first row with the hash of "k1" is active and expires at time 100:
    it is accepted at time 100. *)
Lemma get_user_from_api_key_spec_witness :
  get_user_from_api_key hash_stub "k1" [key_revoked; key_read] 100 = Some key_read.
Proof.
  apply (proj2 (get_user_from_api_key_spec hash_stub "k1" [key_revoked; key_read] 100
                  key_read)).
  exists [key_revoked], []. split_and!.
  - reflexivity.
  - constructor; [discriminate|constructor].
  - reflexivity.
  - reflexivity.
  - simpl. lia.
Defined.

Lemma get_user_from_api_key_first_match_witness :
  get_user_from_api_key hash_stub "k3" ([key_read] ++ key_expired :: [key_renewed])%list 50
  = None.
Proof.
  apply get_user_from_api_key_first_match.
  - constructor; [discriminate|constructor].
  - reflexivity.
  - right. simpl. lia.
Defined.

Lemma require_permission_jwt_admin_witness :
  require_permission hash_stub jwt_stub "withdraw" (Some "tok-alice") (Some "k1")
    [key_read] 50 = Returned alice.
Proof. apply require_permission_jwt_admin. vm_compute. reflexivity. Defined.

Lemma require_permission_api_key_witness :
  require_permission hash_stub jwt_stub "deposit" None (Some "k1") [key_read] 50
  = if bool_decide ("deposit" ∈ key_permissions key_read) then Returned (key_user key_read)
    else Raised 403 (String.append "Missing required permission: '"
                       (String.append "deposit" "'")).
Proof.
  apply require_permission_api_key.
  - intros c [=].
  - discriminate.
  - vm_compute. reflexivity.
Defined.

Lemma require_permission_unauthenticated_witness :
  require_permission hash_stub jwt_stub "read" (Some "tok-bob") (Some "k2")
    [key_read; key_revoked] 50
  = Raised 401 "Not authenticated. Provide a valid Bearer token or x-api-key.".
Proof.
  apply require_permission_unauthenticated.
  - intros c [= <-]. vm_compute. reflexivity.
  - intros k [= <-] _. vm_compute. reflexivity.
Defined.
